(** * GraphBuilder.convert_json_to_graphviz

    A shallow embedding of
    [src/scrapegraphai/builders/graph_builder.py], lines 134-179: the
    static method that walks a JSON graph configuration and fills a
    [graphviz.Digraph] with one statement per node and per edge target.

    The Python values the method can meet are those a JSON document
    decodes to.  The [Digraph] object is modelled by what the method puts
    into it: its constructor arguments and the sequence of [node] and
    [edge] calls it receives.  Of the graphviz package the model keeps
    the three ways its calls can raise: the constructor on a format it
    does not know, [node] on a name that is not a string, [edge] on an
    end that is not a string. *)

From Stdlib Require Import String Ascii List ZArith Bool Lia.
Import ListNotations.
Open Scope string_scope.
Open Scope list_scope.
Set Warnings "-register-all".

(** ** Python values *)

Module Py.

(** The values [json.loads] produces.  Numbers are the integers; a
    floating-point number is outside the model. *)
Inductive json : Type :=
| JNull
| JBool (b : bool)
| JNum (n : Z)
| JStr (s : string)
| JList (items : list json)
| JDict (entries : list (string * json)).

(** The built-in exceptions the method can raise. *)
Inductive exn : Type :=
| KeyError
| IndexError
| TypeError
| AttributeError
| ImportError
| ValueError.

Definition res (A : Type) : Type := (exn + A)%type.

(** A subscript is a string or an integer. *)
Inductive key : Type :=
| KStr (s : string)
| KInt (i : Z).

(** A [dict] keeps its entries in insertion order; a key is looked up
    by string equality. *)
Fixpoint lookup (k : string) (d : list (string * json)) : option json :=
  match d with
  | [] => None
  | (k', v) :: d' => if String.eqb k k' then Some v else lookup k d'
  end.

(** Sequence indexing [l[i]], a negative index counting from the end. *)
Definition index {A : Type} (l : list A) (i : Z) : res A :=
  let n := Z.of_nat (length l) in
  let j := if (i <? 0)%Z then (n + i)%Z else i in
  if ((0 <=? j) && (j <? n))%Z%bool
  then match nth_error l (Z.to_nat j) with
       | Some x => inr x
       | None => inl IndexError
       end
  else inl IndexError.

(** The characters of a [str], each one a [str] of length one. *)
Fixpoint chars (s : string) : list json :=
  match s with
  | EmptyString => []
  | String c s' => JStr (String c EmptyString) :: chars s'
  end.

(** [v[k]] *)
Definition getitem (v : json) (k : key) : res json :=
  match v, k with
  | JDict d, KStr s =>
      match lookup s d with
      | Some x => inr x
      | None => inl KeyError
      end
  | JDict _, KInt _ => inl KeyError
  | JList l, KInt i => index l i
  | JList _, KStr _ => inl TypeError
  | JStr s, KInt i => index (chars s) i
  | JStr _, KStr _ => inl TypeError
  | JNull, _ | JBool _, _ | JNum _, _ => inl TypeError
  end.

(** [v.get(k, default)]: only a [dict] has the method. *)
Definition get (v : json) (k : string) (default : json) : res json :=
  match v with
  | JDict d =>
      match lookup k d with
      | Some x => inr x
      | None => inr default
      end
  | _ => inl AttributeError
  end.

(** [for x in v]: the items of a list, the characters of a string, the
    keys of a dict; anything else is not iterable. *)
Definition iter (v : json) : res (list json) :=
  match v with
  | JList l => inr l
  | JStr s => inr (chars s)
  | JDict d => inr (map (fun kv => JStr (fst kv)) d)
  | JNull | JBool _ | JNum _ => inl TypeError
  end.

(** [isinstance(v, list)] *)
Definition is_list (v : json) : bool :=
  match v with
  | JList _ => true
  | _ => false
  end.

Definition Z_of_bool (b : bool) : Z := if b then 1%Z else 0%Z.

(** [a == b].  A [bool] is an [int] ([True == 1]); lists compare item
    by item; dicts compare as mappings, whatever the insertion order. *)
Fixpoint py_eq (a b : json) {struct a} : bool :=
  match a, b with
  | JNull, JNull => true
  | JBool x, JBool y => Bool.eqb x y
  | JBool x, JNum n => (Z_of_bool x =? n)%Z
  | JNum n, JBool y => (n =? Z_of_bool y)%Z
  | JNum n, JNum m => (n =? m)%Z
  | JStr s, JStr t => String.eqb s t
  | JList xs, JList ys =>
      (fix items (xs ys : list json) {struct xs} : bool :=
         match xs, ys with
         | [], [] => true
         | x :: xs', y :: ys' => py_eq x y && items xs' ys'
         | _, _ => false
         end) xs ys
  | JDict d, JDict e =>
      (length d =? length e)%nat &&
      (fix entries (d : list (string * json)) {struct d} : bool :=
         match d with
         | [] => true
         | (k, v) :: d' =>
             match lookup k e with
             | Some w => py_eq v w && entries d'
             | None => false
             end
         end) d
  | _, _ => false
  end.

End Py.

Import Py.

(** ** The graphviz object *)

Module Graphviz.

(** One line of the graph body: a [node] call with its keyword
    attributes, or an [edge] call. *)
Inductive stmt : Type :=
| Node (name : json) (attrs : list (string * string))
| Edge (tail_name head_name : json).

Record Digraph : Type := mkDigraph {
  comment : string;
  format : string;
  node_attr : list (string * string);
  body : list stmt
}.

Definition is_str (v : json) : bool :=
  match v with
  | JStr _ => true
  | _ => false
  end.

(** [graphviz.Digraph(comment=..., format=..., node_attr=...)]: the
    constructor raises [ValueError] on a format the package does not
    know.  Which formats it knows is the package's own table, taken as
    [known_format]. *)
Definition new (known_format : string -> bool) (comment format : string)
    (node_attr : list (string * string)) : res Digraph :=
  if known_format format
  then inr (mkDigraph comment format node_attr [])
  else inl ValueError.

Definition append (g : Digraph) (s : stmt) : Digraph :=
  mkDigraph (comment g) (format g) (node_attr g) (body g ++ [s]).

(** [graph.node(name, **attrs)]: a name that is not a string raises
    [TypeError] and leaves the body as it is. *)
Definition node (g : Digraph) (name : json)
    (attrs : list (string * string)) : res Digraph :=
  if is_str name then inr (append g (Node name attrs)) else inl TypeError.

(** [graph.edge(tail_name, head_name)]: an end that is not a string
    raises [AttributeError] and leaves the body as it is. *)
Definition edge (g : Digraph) (tail_name head_name : json) : res Digraph :=
  if is_str tail_name && is_str head_name
  then inr (append g (Edge tail_name head_name))
  else inl AttributeError.

End Graphviz.

Import Graphviz.

(** ** The objects of one call and the monad of the method body *)

(** During a call two objects are live: the caller's [json_data] and the
    local [graph].  The body reads the first and appends to the second. *)
Record heap : Type := mkHeap {
  arg_object : json;
  graph_object : Digraph
}.

Definition M (A : Type) : Type := heap -> heap * res A.

Definition ret {A : Type} (a : A) : M A := fun h => (h, inr a).

Definition bind {A B : Type} (m : M A) (f : A -> M B) : M B :=
  fun h =>
    match m h with
    | (h', inr a) => f a h'
    | (h', inl e) => (h', inl e)
    end.

Definition lift {A : Type} (r : res A) : M A := fun h => (h, r).

Definition read_arg : M json := fun h => (h, inr (arg_object h)).

(** A call on the graph: the graph is replaced when the call returns and
    kept when it raises. *)
Definition on_graph (call : Digraph -> res Digraph) : M unit :=
  fun h =>
    match call (graph_object h) with
    | inr g => (mkHeap (arg_object h) g, inr tt)
    | inl e => (h, inl e)
    end.

Definition graph_node (name : json) (attrs : list (string * string))
    : M unit :=
  on_graph (fun g => node g name attrs).

Definition graph_edge (tail_name head_name : json) : M unit :=
  on_graph (fun g => edge g tail_name head_name).

Declare Scope py_scope.
Delimit Scope py_scope with py.
Notation "x <- m ;; k" := (bind m (fun x => k))
  (at level 61, m at next level, right associativity) : py_scope.
Notation "m ;; k" := (bind m (fun _ => k))
  (at level 61, right associativity) : py_scope.
Open Scope py_scope.

(** [for x in xs: f x] over the items already taken from the iterable. *)
Fixpoint for_each {A : Type} (xs : list A) (f : A -> M unit) : M unit :=
  match xs with
  | [] => ret tt
  | x :: xs' => f x ;; for_each xs' f
  end.

(** ** The method *)

(** Lines 166-170, one turn of the loop over the nodes. *)
Definition draw_node (entry_point node : json) : M unit :=
  name <- lift (getitem node (KStr "node_name")) ;;
  if py_eq name entry_point
  then name <- lift (getitem node (KStr "node_name")) ;;
       graph_node name [("shape", "doublecircle")]
  else name <- lift (getitem node (KStr "node_name")) ;;
       graph_node name [].

(** Lines 172-177, one turn of the loop over the edges.  In the list
    branch [edge["from"]] is read once per target. *)
Definition draw_edge (edge : json) : M unit :=
  to <- lift (getitem edge (KStr "to")) ;;
  if is_list to
  then to <- lift (getitem edge (KStr "to")) ;;
       targets <- lift (iter to) ;;
       for_each targets (fun to_node =>
         from <- lift (getitem edge (KStr "from")) ;;
         graph_edge from to_node)
  else from <- lift (getitem edge (KStr "from")) ;;
       to <- lift (getitem edge (KStr "to")) ;;
       graph_edge from to.

(** Lines 166-177, the two loops. *)
Definition draw_graph (nodes edges entry_point : json) : M unit :=
  node_items <- lift (iter nodes) ;;
  for_each node_items (draw_node entry_point) ;;
  edge_items <- lift (iter edges) ;;
  for_each edge_items draw_edge.

(** Lines 159-177. *)
Definition convert_body : M unit :=
  json_data <- read_arg ;;
  text <- lift (getitem json_data (KStr "text")) ;;
  graph_config <- lift (getitem text (KInt 0)) ;;
  nodes <- lift (get graph_config "nodes" (JList [])) ;;
  edges <- lift (get graph_config "edges" (JList [])) ;;
  entry_point <- lift (get graph_config "entry_point" JNull) ;;
  draw_graph nodes edges entry_point.

(** How a call ends: the graph is returned, or an exception leaves the
    method after [calls] were already made on the local graph. *)
Inductive outcome : Type :=
| Returned (graph : Digraph)
| Raised (e : exn) (calls : list stmt).

Record result : Type := mkResult {
  ended : outcome;
  arg_after : json
}.

(** Lines 145-179.  [graphviz_installed] says whether [import graphviz]
    succeeds, [known_format] which formats the package knows.  The graph
    is made at line 153, before [json_data] is looked at. *)
Definition convert_json_to_graphviz (graphviz_installed : bool)
    (known_format : string -> bool) (json_data : json) (format : string)
    : result :=
  if graphviz_installed
  then
    match Graphviz.new known_format "ScrapeGraphAI Generated Graph" format
            [("color", "lightblue2"); ("style", "filled")] with
    | inl e => mkResult (Raised e []) json_data
    | inr graph =>
        match convert_body (mkHeap json_data graph) with
        | (h, inr _) => mkResult (Returned (graph_object h)) (arg_object h)
        | (h, inl e) =>
            mkResult (Raised e (body (graph_object h))) (arg_object h)
        end
    end
  else mkResult (Raised ImportError []) json_data.

(** ** Reading a description

    The views below read a raw configuration the way the documented input
    contract lays it out, without running the method: the name of every
    node, the two ends of every edge, and the entry point when the key is
    there. *)

Fixpoint traverse {A B : Type} (f : A -> option B) (l : list A)
    : option (list B) :=
  match l with
  | [] => Some []
  | x :: l' =>
      match f x, traverse f l' with
      | Some y, Some ys => Some (y :: ys)
      | _, _ => None
      end
  end.

Definition node_name (node : json) : option json :=
  match node with
  | JDict d => lookup "node_name" d
  | _ => None
  end.

Definition edge_ends (edge : json) : option (json * json) :=
  match edge with
  | JDict d =>
      match lookup "from" d, lookup "to" d with
      | Some f, Some t => Some (f, t)
      | _, _ => None
      end
  | _ => None
  end.

(** [json_data["text"][0]] *)
Definition graph_config (json_data : json) : res json :=
  match getitem json_data (KStr "text") with
  | inr text => getitem text (KInt 0)
  | inl e => inl e
  end.

Record shape : Type := mkShape {
  names : list json;
  ends : list (json * json);
  entry : option json
}.

Definition items_of (field : option json) : option (list json) :=
  match field with
  | None => Some []
  | Some (JList l) => Some l
  | Some _ => None
  end.

Definition shape_of (cfg : list (string * json)) : option shape :=
  match items_of (lookup "nodes" cfg), items_of (lookup "edges" cfg) with
  | Some nodes, Some edges =>
      match traverse node_name nodes, traverse edge_ends edges with
      | Some ns, Some es => Some (mkShape ns es (lookup "entry_point" cfg))
      | _, _ => None
      end
  | _, _ => None
  end.

(** A "to" field the input contract allows: a string or a list of
    strings. *)
Definition well_formed_to (to : json) : bool :=
  match to with
  | JStr _ => true
  | JList ts => forallb is_str ts
  | _ => false
  end.

(** The types of the input contract: every node name is a string, every
    "from" is a string, every "to" a string or a list of strings. *)
Definition typed_names (ns : list json) : bool := forallb is_str ns.

Definition typed_end (e : json * json) : bool :=
  is_str (fst e) && well_formed_to (snd e).

Definition typed_ends (es : list (json * json)) : bool :=
  forallb typed_end es.

Definition typed (s : shape) : bool :=
  typed_names (names s) && typed_ends (ends s).

(** What a description of that shape is expected to draw. *)

Definition doublecircle : list (string * string) :=
  [("shape", "doublecircle")].

Definition entry_value (s : shape) : json :=
  match entry s with
  | Some v => v
  | None => JNull
  end.

Definition node_stmt (entry_point name : json) : stmt :=
  Node name (if py_eq name entry_point then doublecircle else []).

Definition targets (to : json) : list json :=
  match to with
  | JList ts => ts
  | _ => [to]
  end.

Definition edge_stmts (e : json * json) : list stmt :=
  map (Edge (fst e)) (targets (snd e)).

Definition drawing (s : shape) : list stmt :=
  map (node_stmt (entry_value s)) (names s) ++ flat_map edge_stmts (ends s).

(** The graph of line 153, once the constructor has taken the format. *)
Definition fresh_graph (format : string) : Digraph :=
  mkDigraph "ScrapeGraphAI Generated Graph" format
    [("color", "lightblue2"); ("style", "filled")] [].

Definition extend (g : Digraph) (l : list stmt) : Digraph :=
  mkDigraph (comment g) (Graphviz.format g) (node_attr g) (body g ++ l).

(** The [node] and the [edge] calls of a body, in the order made. *)
Fixpoint node_calls (l : list stmt)
    : list (json * list (string * string)) :=
  match l with
  | [] => []
  | Node n a :: l' => (n, a) :: node_calls l'
  | Edge _ _ :: l' => node_calls l'
  end.

Fixpoint edge_calls (l : list stmt) : list (json * json) :=
  match l with
  | [] => []
  | Node _ _ :: l' => edge_calls l'
  | Edge f t :: l' => (f, t) :: edge_calls l'
  end.

Definition highlighted (c : json * list (string * string)) : bool :=
  match snd c with
  | [] => false
  | _ :: _ => true
  end.

(** A computation that returns after appending [l] to the graph. *)
Definition appends (m : M unit) (l : list stmt) : Prop :=
  forall h,
    m h = (mkHeap (arg_object h) (extend (graph_object h) l), inr tt).

(** A computation that raises [e] after appending [l] to the graph. *)
Definition stops {A : Type} (m : M A) (l : list stmt) (e : exn) : Prop :=
  forall h,
    m h = (mkHeap (arg_object h) (extend (graph_object h) l), inl e).

(** ** The argument object is only read *)

Definition preserves_arg {A : Type} (m : M A) : Prop :=
  forall h, arg_object (fst (m h)) = arg_object h.

(** Two runs end alike when they leave the same graph and the same
    result; a computation is blind to the argument object when runs from
    heaps with the same graph end alike. *)
Definition ends_alike {A : Type} (r1 r2 : heap * res A) : Prop :=
  graph_object (fst r1) = graph_object (fst r2) /\ snd r1 = snd r2.

Definition arg_blind {A : Type} (m : M A) : Prop :=
  forall h1 h2,
    graph_object h1 = graph_object h2 -> ends_alike (m h1) (m h2).

(** The defaults of lines 162-164: [get("nodes", [])], [get("edges", [])]
    and [get("entry_point")]. *)
Definition defaults : list (string * json) :=
  [("nodes", JList []); ("edges", JList []); ("entry_point", JNull)].

(** The two forms of the "to" field of the input contract. *)
Inductive target : Type :=
| Single (name : string)
| Sequence (targets : list string).

Definition target_json (t : target) : json :=
  match t with
  | Single name => JStr name
  | Sequence l => JList (map JStr l)
  end.

Definition target_names (t : target) : list string :=
  match t with
  | Single name => [name]
  | Sequence l => l
  end.

Definition edge_pairs (es : list (json * json)) : list (json * json) :=
  flat_map (fun e => map (pair (fst e)) (targets (snd e))) es.

(** The items of a list up to its first item that is not a string. *)
Fixpoint leading_strs (l : list json) : list json :=
  match l with
  | [] => []
  | x :: l' => if is_str x then x :: leading_strs l' else []
  end.

(** ** Sample inputs *)

Module Sample.

(** A package that knows three formats. *)
Definition formats (format : string) : bool :=
  existsb (String.eqb format) ["pdf"; "svg"; "png"].

Definition node_of (name : string) : json :=
  JDict [("node_name", JStr name)].

Definition edge_of (from : string) (to : json) : json :=
  JDict [("from", JStr from); ("to", to)].

Definition wrapped (cfg : list (string * json)) : json :=
  JDict [("text", JList [JDict cfg])].

(** fetch -> parse, entering at fetch. *)
Definition fetch_parse : list (string * json) :=
  [("nodes", JList [node_of "fetch"; node_of "parse"]);
   ("edges", JList [edge_of "fetch" (JStr "parse")]);
   ("entry_point", JStr "fetch")].

(** fetch fans out to parse and store. *)
Definition fan_out : list (string * json) :=
  [("nodes", JList [node_of "fetch"; node_of "parse"; node_of "store"]);
   ("edges", JList [edge_of "fetch" (JList [JStr "parse"; JStr "store"])]);
   ("entry_point", JStr "fetch")].

(** The documented contract handed over without the "text" wrapper. *)
Definition unwrapped : json := JDict fetch_parse.

(** No "entry_point" key. *)
Definition no_entry_point : list (string * json) :=
  [("nodes", JList [node_of "fetch"; node_of "parse"]);
   ("edges", JList [edge_of "fetch" (JStr "parse")])].

(** An empty "entry_point". *)
Definition empty_entry_point : list (string * json) :=
  [("nodes", JList [node_of "fetch"; node_of "parse"]);
   ("edges", JList [edge_of "fetch" (JStr "parse")]);
   ("entry_point", JStr EmptyString)].

(** An entry point that names no node. *)
Definition ghost_entry_point : list (string * json) :=
  [("nodes", JList [node_of "fetch"; node_of "parse"]);
   ("edges", JList [edge_of "fetch" (JStr "parse")]);
   ("entry_point", JStr "ghost")].

(** An edge to a node that is not declared. *)
Definition dangling_edge : list (string * json) :=
  [("nodes", JList [node_of "fetch"]);
   ("edges", JList [edge_of "fetch" (JStr "ghost")]);
   ("entry_point", JStr "fetch")].

(** An edge whose "to" is a number. *)
Definition malformed_edge : list (string * json) :=
  [("nodes", JList [node_of "fetch"; node_of "parse"]);
   ("edges", JList [edge_of "fetch" (JNum 7)]);
   ("entry_point", JStr "fetch")].

(** An edge whose "to" is a list with a number in the middle. *)
Definition mixed_targets : list (string * json) :=
  [("nodes", JList [node_of "fetch"; node_of "parse"; node_of "store"]);
   ("edges",
    JList [edge_of "fetch" (JList [JStr "parse"; JNum 7; JStr "store"]);
           edge_of "parse" (JStr "store")]);
   ("entry_point", JStr "fetch")].

(** Only the edges are given. *)
Definition only_edges : list (string * json) :=
  [("edges", JList [edge_of "fetch" (JStr "parse")])].

(** Only the edges are given, and the edge has no "from". *)
Definition only_edges_no_from : list (string * json) :=
  [("edges", JList [JDict [("to", JStr "parse")]])].

(** No "entry_point" key, and a node whose name is [None]. *)
Definition null_name : list (string * json) :=
  [("nodes", JList [JDict [("node_name", JNull)]])].

End Sample.

(** ** The documented input contract *)

Module Contract.

Record NodeSpec : Type := mkNodeSpec {
  name : string;
  description : string;
  node_type : string;
  args : list string
}.

Definition node_json (n : NodeSpec) : json :=
  JDict [("node_name", JStr (name n));
         ("description", JStr (description n));
         ("type", JStr (node_type n));
         ("args", JList (map JStr (args n)))].

Definition edge_json (e : string * target) : json :=
  JDict [("from", JStr (fst e)); ("to", target_json (snd e))].

(** The configuration; the "entry_point" key is there when a value is
    given. *)
Definition config (nodes : list NodeSpec) (edges : list (string * target))
    (entry_point : option json) : list (string * json) :=
  ("nodes", JList (map node_json nodes)) ::
  ("edges", JList (map edge_json edges)) ::
  match entry_point with
  | Some v => [("entry_point", v)]
  | None => []
  end.

Definition raw (nodes : list NodeSpec) (edges : list (string * target))
    (entry_point : option json) : json :=
  JDict [("text", JList [JDict (config nodes edges entry_point)])].

(** What the edges of a description draw. *)
Definition edge_lines (edges : list (string * target)) : list stmt :=
  flat_map
    (fun e => map (fun t => Edge (JStr (fst e)) (JStr t))
                (target_names (snd e)))
    edges.

End Contract.

(** ** Every way a run can end

    The views of this part follow a run on any input, also one that is
    not laid out as the contract says. *)

(** The calls made on the graph when the method is left. *)
Definition calls_of (o : outcome) : list stmt :=
  match o with
  | Returned g => body g
  | Raised _ l => l
  end.

Definition is_node_stmt (s : stmt) : bool :=
  match s with
  | Node _ _ => true
  | Edge _ _ => false
  end.

Definition is_edge_stmt (s : stmt) : bool :=
  match s with
  | Node _ _ => false
  | Edge _ _ => true
  end.

(** Node statements first, edge statements after them. *)
Fixpoint nodes_then_edges (l : list stmt) : bool :=
  match l with
  | [] => true
  | Node _ _ :: l' => nodes_then_edges l'
  | Edge _ _ :: l' => forallb is_edge_stmt l'
  end.

Definition is_dict (v : json) : bool :=
  match v with
  | JDict _ => true
  | _ => false
  end.

(** [None], a [bool] and an [int] can be neither subscripted nor
    iterated. *)
Definition scalar (v : json) : bool :=
  match v with
  | JNull | JBool _ | JNum _ => true
  | _ => false
  end.

Definition value_or (field : option json) (default : json) : json :=
  match field with
  | Some v => v
  | None => default
  end.

(** The name under which a node is drawn: the "node_name" of a mapping,
    when it is a string. *)
Definition node_view (node : json) : option string :=
  match node_name node with
  | Some (JStr name) => Some name
  | _ => None
  end.

(** What the turn of a node that cannot be drawn raises: [KeyError] when
    a mapping has no "node_name", [TypeError] when the item takes no
    string subscript or when [graph.node] is given a name that is not a
    string. *)
Definition node_exn (node : json) : exn :=
  match node with
  | JDict d =>
      match lookup "node_name" d with
      | None => KeyError
      | Some _ => TypeError
      end
  | _ => TypeError
  end.

(** The loop over the targets of one edge, read off the edge: the
    statements it appends and the exception that ends it, if any.  Each
    turn reads "from" and then calls [graph.edge]. *)
Fixpoint targets_run (from : option json) (ts : list json)
    : list stmt * option exn :=
  match ts with
  | [] => ([], None)
  | t :: ts' =>
      match from with
      | None => ([], Some KeyError)
      | Some f =>
          if is_str f && is_str t
          then let (l, r) := targets_run from ts' in (Edge f t :: l, r)
          else ([], Some AttributeError)
      end
  end.

(** One turn of the loop over the edges, read off the edge. *)
Definition edge_run (edge : json) : list stmt * option exn :=
  match edge with
  | JDict d =>
      match lookup "to" d with
      | None => ([], Some KeyError)
      | Some (JList ts) => targets_run (lookup "from" d) ts
      | Some t =>
          match lookup "from" d with
          | None => ([], Some KeyError)
          | Some f =>
              if is_str f && is_str t
              then ([Edge f t], None)
              else ([], Some AttributeError)
          end
      end
  | _ => ([], Some TypeError)
  end.

Definition edge_view (edge : json) : option (list stmt) :=
  match edge_run edge with
  | (l, None) => Some l
  | (_, Some _) => None
  end.

Definition node_ok (node : json) : bool :=
  match node_view node with
  | Some _ => true
  | None => false
  end.

Definition edge_ok (edge : json) : bool :=
  match edge_view edge with
  | Some _ => true
  | None => false
  end.

(** The inputs on which the method returns, once the graph is made. *)
Definition accepts (json_data : json) : bool :=
  match graph_config json_data with
  | inr (JDict cfg) =>
      match iter (value_or (lookup "nodes" cfg) (JList [])),
            iter (value_or (lookup "edges" cfg) (JList [])) with
      | inr nodes, inr edges => forallb node_ok nodes && forallb edge_ok edges
      | _, _ => false
      end
  | _ => false
  end.

(** Whatever its result, a computation only appends to the graph, and
    what it appends satisfies [L]. *)
Definition emits {A : Type} (L : list stmt -> Prop) (m : M A) : Prop :=
  forall h, exists l,
    L l /\ graph_object (fst (m h)) = extend (graph_object h) l.

Definition outcome_of (r : heap * res unit) : outcome :=
  match r with
  | (h, inr _) => Returned (graph_object h)
  | (h, inl e) => Raised e (body (graph_object h))
  end.

(** Sets of call sequences that hold the empty sequence and are closed
    under concatenation. *)
Definition closed (L : list stmt -> Prop) : Prop :=
  L [] /\ forall l1 l2, L l1 -> L l2 -> L (l1 ++ l2).

Definition all_nodes (l : list stmt) : Prop :=
  forallb is_node_stmt l = true.

Definition all_edges (l : list stmt) : Prop :=
  forallb is_edge_stmt l = true.

Definition in_order (l : list stmt) : Prop := nodes_then_edges l = true.

(** Inputs off the documented contract. *)
Module Faulty.

(** The second node has a "name" where "node_name" is expected. *)
Definition bad_node : list (string * json) :=
  [("nodes", JList [Sample.node_of "fetch";
                    JDict [("name", JStr "parse")];
                    Sample.node_of "store"]);
   ("edges", JList [Sample.edge_of "fetch" (JStr "store")]);
   ("entry_point", JStr "fetch")].

(** The second node is named by a number. *)
Definition number_name : list (string * json) :=
  [("nodes", JList [Sample.node_of "fetch";
                    JDict [("node_name", JNum 7)];
                    Sample.node_of "store"]);
   ("edges", JList [Sample.edge_of "fetch" (JStr "store")]);
   ("entry_point", JStr "fetch")].

(** The second edge has no "from". *)
Definition bad_edge : list (string * json) :=
  [("nodes", JList [Sample.node_of "fetch"; Sample.node_of "parse"]);
   ("edges", JList [Sample.edge_of "fetch" (JStr "parse");
                    JDict [("to", JStr "fetch")];
                    Sample.edge_of "parse" (JStr "fetch")]);
   ("entry_point", JStr "fetch")].

Definition null_nodes : list (string * json) :=
  [("nodes", JNull)].

Definition null_edges : list (string * json) :=
  [("nodes", JList [Sample.node_of "fetch"]); ("edges", JNull)].

(** "text" holds a list of nodes where the configuration is expected. *)
Definition list_config : json :=
  JDict [("text", JList [JList [Sample.node_of "fetch"]])].

(** The name of the entry point is carried by two nodes. *)
Definition repeated_entry : list (string * json) :=
  [("nodes", JList [Sample.node_of "fetch"; Sample.node_of "parse";
                    Sample.node_of "fetch"]);
   ("entry_point", JStr "fetch")].

(** An edge with an empty list of targets and no "from". *)
Definition no_targets : list (string * json) :=
  [("nodes", JList [Sample.node_of "fetch"]);
   ("edges", JList [JDict [("to", JList [])]])].

End Faulty.

(** ** The constructor and its helpers

    Lines 44-122.  The chat-model classes, [ChatPromptTemplate] and
    [create_extraction_chain] come from the langchain packages: a call to
    one of them may raise, which is the package's affair and is taken as
    a parameter; when it returns, what it returns is modelled by the
    record of its arguments.  [nodes_metadata] and [graph_schema] come
    from [..helpers], which is not part of the sources at hand: both are
    taken as parameters, the registry as a table of entries with a
    "description", a "type" and an "args" mapping. *)

Module Builder.

Inductive error : Type :=
| ValueError (message : string)
| Builtin (e : exn).

(** [d[k] = v]: a key already there keeps its place. *)
Fixpoint set_item (k : string) (v : json) (d : list (string * json))
    : list (string * json) :=
  match d with
  | [] => [(k, v)]
  | (k', v') :: d' =>
      if String.eqb k k' then (k', v) :: d' else (k', v') :: set_item k v d'
  end.

(** [d.update(e)] *)
Definition update (d e : list (string * json)) : list (string * json) :=
  fold_left (fun acc kv => set_item (fst kv) (snd kv) acc) e d.

(** [{**a, **b}] *)
Definition merge (a b : list (string * json)) : list (string * json) :=
  update (update [] a) b.

(** [k in d] *)
Definition has_key (k : string) (d : list (string * json)) : bool :=
  match lookup k d with
  | Some _ => true
  | None => false
  end.

(** [sub in s] for two strings: [sub] occurs somewhere in [s]. *)
Fixpoint contains (sub s : string) : bool :=
  if String.prefix sub s then true
  else match s with
       | EmptyString => false
       | String _ s' => contains sub s'
       end.

(** [x in v] for a string [x]: a substring of a string, an item of a
    list, a key of a dict. *)
Definition py_in (x : string) (v : json) : res bool :=
  match v with
  | JStr s => inr (contains x s)
  | JList l => inr (existsb (py_eq (JStr x)) l)
  | JDict d => inr (has_key x d)
  | JNull | JBool _ | JNum _ => inl TypeError
  end.

Inductive chat_class : Type :=
| ChatOpenAI
| ChatGoogleGenerativeAI
| ErnieBotChat.

(** A chat model, when its constructor returns: the class called and the
    dict handed to it, which the source passes as the one positional
    argument. *)
Record llm : Type := mkLlm {
  llm_class : chat_class;
  llm_params : list (string * json)
}.

(** What the langchain packages do with the calls made on them: for each
    call, the exception it raises, if it raises. *)
Record langchain : Type := mkLangchain {
  constructor_raises : chat_class -> list (string * json) -> option exn;
  from_template_raises : string -> option exn;
  create_chain_raises : string -> json -> llm -> option exn
}.

(** [cls(llm_params)] *)
Definition construct (lib : langchain) (cls : chat_class)
    (llm_params : list (string * json)) : error + llm :=
  match constructor_raises lib cls llm_params with
  | Some e => inl (Builtin e)
  | None => inr (mkLlm cls llm_params)
  end.

Definition llm_defaults : list (string * json) :=
  [("temperature", JNum 0); ("streaming", JBool true)].

(** [sub in llm_params["model"]] *)
Definition in_model (sub : string) (llm_params : list (string * json))
    : error + bool :=
  match getitem (JDict llm_params) (KStr "model") with
  | inl e => inl (Builtin e)
  | inr model =>
      match py_in sub model with
      | inl e => inl (Builtin e)
      | inr b => inr b
      end
  end.

(** Lines 64-81 up to the constructor call: the class to be called and
    the dict to be handed to it, or the exception raised before any class
    is called.  [genai_installed] says whether
    [from langchain_google_genai import ChatGoogleGenerativeAI]
    succeeds. *)
Definition llm_call (genai_installed : bool) (llm_config : json)
    : error + chat_class * list (string * json) :=
  match llm_config with
  | JDict cfg =>
      let llm_params := merge llm_defaults cfg in
      if negb (has_key "api_key" llm_params)
      then inl (ValueError "LLM configuration must include an 'api_key'.")
      else
        match in_model "gpt-" llm_params with
        | inl e => inl e
        | inr true => inr (ChatOpenAI, llm_params)
        | inr false =>
            match in_model "gemini" llm_params with
            | inl e => inl e
            | inr true =>
                if genai_installed
                then inr (ChatGoogleGenerativeAI, llm_params)
                else inl (Builtin ImportError)
            | inr false =>
                match in_model "ernie" llm_params with
                | inl e => inl e
                | inr true => inr (ErnieBotChat, llm_params)
                | inr false => inl (ValueError "Model not supported")
                end
            end
        end
  | _ => inl (Builtin TypeError)
  end.

(** Lines 54-81: the result of the method is what the constructor call
    gives. *)
Definition _create_llm (lib : langchain) (genai_installed : bool)
    (llm_config : json) : error + llm :=
  match llm_call genai_installed llm_config with
  | inl e => inl e
  | inr (cls, llm_params) => construct lib cls llm_params
  end.

(** One entry of [nodes_metadata]. *)
Record node_metadata : Type := mkNodeMetadata {
  description : string;
  type : string;
  args : list (string * json)
}.

Definition newline : string := String "010"%char EmptyString.

Definition quote : string := String "034"%char EmptyString.

(** The f-string of lines 93-94: its text runs over a line break and the
    twelve blanks that open line 94. *)
Definition node_line (node : string) (data : node_metadata) : string :=
  ("- " ++ node ++ ": " ++ description data ++
   " (Type: " ++ type data ++ "," ++ newline ++
   "            Args: " ++ String.concat ", " (map fst (args data)) ++
   ")")%string.

(** Lines 83-97. *)
Definition _generate_nodes_description
    (nodes_metadata : list (string * node_metadata)) : string :=
  String.concat newline
    (map (fun entry => node_line (fst entry) (snd entry)) nodes_metadata).

(** [str.format] with keyword arguments that are strings, for templates
    whose replacement fields are plain names.  A doubled brace is a
    literal brace; a brace left alone and a field with no argument make
    the call raise; a field with a conversion, a format specification, an
    attribute or an index is outside the model. *)
Inductive formatted : Type :=
| Formatted (s : string)
| Raises (e : error)
| Unsupported.

Definition prepend (c : ascii) (r : formatted) : formatted :=
  match r with
  | Formatted s => Formatted (String c s)
  | other => other
  end.

Definition prepend_string (v : string) (r : formatted) : formatted :=
  match r with
  | Formatted s => Formatted (v ++ s)%string
  | other => other
  end.

Fixpoint lookup_kwarg (name : string) (kwargs : list (string * string))
    : option string :=
  match kwargs with
  | [] => None
  | (k, v) :: kwargs' =>
      if String.eqb name k then Some v else lookup_kwarg name kwargs'
  end.

Definition is_digit (c : ascii) : bool :=
  (48 <=? nat_of_ascii c)%nat && (nat_of_ascii c <=? 57)%nat.

Fixpoint all_digits (s : string) : bool :=
  match s with
  | EmptyString => true
  | String c s' => is_digit c && all_digits s'
  end.

(** A field that is empty or a number asks for a positional argument,
    and there is none. *)
Definition missing_field (name : string) : error :=
  if all_digits name then Builtin IndexError else Builtin KeyError.

Definition special (c : ascii) : bool :=
  existsb (Ascii.eqb c) ["{"; "!"; ":"; "."; "["]%char.

(** [field] holds the part of a field name read so far, once inside
    braces. *)
Fixpoint format_from (kwargs : list (string * string)) (template : string)
    (field : option string) : formatted :=
  match template, field with
  | EmptyString, None => Formatted EmptyString
  | EmptyString, Some _ =>
      Raises (ValueError "expected '}' before end of string")
  | String c rest, None =>
      if Ascii.eqb c "{" then
        match rest with
        | EmptyString =>
            Raises (ValueError "Single '{' encountered in format string")
        | String c' rest' =>
            if Ascii.eqb c' "{"
            then prepend "{" (format_from kwargs rest' None)
            else format_from kwargs rest (Some EmptyString)
        end
      else if Ascii.eqb c "}" then
        match rest with
        | EmptyString =>
            Raises (ValueError "Single '}' encountered in format string")
        | String c' rest' =>
            if Ascii.eqb c' "}"
            then prepend "}" (format_from kwargs rest' None)
            else
              Raises (ValueError "Single '}' encountered in format string")
        end
      else prepend c (format_from kwargs rest None)
  | String c rest, Some name =>
      if Ascii.eqb c "}" then
        match lookup_kwarg name kwargs with
        | Some v => prepend_string v (format_from kwargs rest None)
        | None => Raises (missing_field name)
        end
      else if special c then Unsupported
      else
        format_from kwargs rest (Some (name ++ String c EmptyString)%string)
  end.

Definition str_format (template : string) (kwargs : list (string * string))
    : formatted :=
  format_from kwargs template None.

(** The literal of lines 108-116, line by line: it opens with a line
    break and closes with the eight blanks before the closing quotes. *)
Definition intro_lines : list string :=
  [EmptyString;
   "        You are an AI that designs direct graphs for web scraping tasks.";
   "        Your goal is to create a web scraping pipeline that is efficient and tailored to the user's requirements.";
   "        You have access to a set of default nodes, each with specific capabilities:";
   EmptyString].

Definition task_line (input : string) : string :=
  ("        Based on the user's input: " ++ quote ++ input ++ quote ++
   ", identify the essential nodes required for the task and suggest a graph configuration that outlines the flow between the chosen nodes.")%string.

Definition template_lines : list string :=
  intro_lines ++
  ["        {nodes_description}";
   EmptyString;
   task_line "{input}";
   "        "].

Definition template : string := String.concat newline template_lines.

(** Lines 108-116. *)
Definition create_graph_prompt_template (nodes_description : string)
    : formatted :=
  str_format template
    [("nodes_description", nodes_description); ("input", "{input}")].

(** A chain, when [create_extraction_chain] returns: the text the prompt
    was made from, the schema and the model. *)
Record LLMChain : Type := mkLLMChain {
  chain_prompt : string;
  chain_schema : json;
  chain_llm : llm
}.

(** Lines 117-122: [ChatPromptTemplate.from_template(text)], then
    [create_extraction_chain(prompt=..., schema=..., llm=...)]; either
    may raise. *)
Definition chain_call (lib : langchain) (text : string)
    (graph_schema : json) (self_llm : llm) : error + LLMChain :=
  match from_template_raises lib text with
  | Some e => inl (Builtin e)
  | None =>
      match create_chain_raises lib text graph_schema self_llm with
      | Some e => inl (Builtin e)
      | None => inr (mkLLMChain text graph_schema self_llm)
      end
  end.

(** Lines 99-122.  [None] stands for a template outside the model of
    [str.format]. *)
Definition _create_extraction_chain (lib : langchain) (graph_schema : json)
    (nodes_description : string) (self_llm : llm)
    : option (error + LLMChain) :=
  match create_graph_prompt_template nodes_description with
  | Formatted s => Some (chain_call lib s graph_schema self_llm)
  | Raises e => Some (inl e)
  | Unsupported => None
  end.

(** What the module and the installation provide. *)
Record environment : Type := mkEnvironment {
  library : langchain;
  genai_installed : bool;
  nodes_metadata : list (string * node_metadata);
  graph_schema : json
}.

Record GraphBuilder : Type := mkGraphBuilder {
  prompt : string;
  config : json;
  self_llm : llm;
  nodes_description : string;
  chain : LLMChain
}.

(** Lines 44-52. *)
Definition __init__ (env : environment) (prompt : string) (config : json)
    : option (error + GraphBuilder) :=
  match getitem config (KStr "llm") with
  | inl e => Some (inl (Builtin e))
  | inr llm_config =>
      match _create_llm (library env) (genai_installed env) llm_config with
      | inl e => Some (inl e)
      | inr m =>
          let description :=
            _generate_nodes_description (nodes_metadata env) in
          match _create_extraction_chain (library env) (graph_schema env)
                  description m
          with
          | Some (inr c) =>
              Some (inr (mkGraphBuilder prompt config m description c))
          | Some (inl e) => Some (inl e)
          | None => None
          end
      end
  end.

(** The text before and the text after the description in the prompt. *)
Definition prompt_head : string :=
  String.concat newline (intro_lines ++ ["        "]).

Definition prompt_tail : string :=
  String.concat newline
    [EmptyString; EmptyString; task_line "{input}"; "        "].

(** [sub] occurs in [s]. *)
Definition occurs (sub s : string) : Prop :=
  exists before after, s = (before ++ sub ++ after)%string.

(** Sample configurations. *)
Definition openai_config : json :=
  JDict [("api_key", JStr "sk-test"); ("model", JStr "gpt-3.5-turbo")].

Definition gemini_config : json :=
  JDict [("api_key", JStr "key"); ("model", JStr "gemini-pro");
         ("temperature", JNum 1)].

Definition ernie_config : json :=
  JDict [("api_key", JStr "key"); ("model", JStr "ernie-bot")].

Definition sample_metadata : list (string * node_metadata) :=
  [("FetchNode",
    mkNodeMetadata "Fetches the page behind a URL." "node"
      [("url", JStr "str")]);
   ("ParseNode",
    mkNodeMetadata "Parses {html} into text." "node"
      [("doc_type", JStr "str"); ("document", JStr "str")])].

(** A library whose chat-model classes take no positional argument and
    raise [TypeError] when handed one. *)
Definition keyword_only : langchain :=
  mkLangchain (fun _ _ => Some TypeError) (fun _ => None)
    (fun _ _ _ => None).

Definition sample_environment : environment :=
  mkEnvironment keyword_only true sample_metadata (JDict []).

Fixpoint count_char (c : ascii) (s : string) : nat :=
  match s with
  | EmptyString => 0
  | String c' s' => (if Ascii.eqb c c' then 1 else 0) + count_char c s'
  end.

(** A library whose [from_template] raises [ValueError] on a text whose
    braces do not pair up, and whose other calls return. *)
Definition brace_strict : langchain :=
  mkLangchain (fun _ _ => None)
    (fun text =>
       if Nat.eqb (count_char "{" text) (count_char "}" text)
       then None else Some Py.ValueError)
    (fun _ _ _ => None).

Definition sample_llm : llm :=
  mkLlm ChatOpenAI
    [("temperature", JNum 0); ("streaming", JBool true);
     ("api_key", JStr "sk-test"); ("model", JStr "gpt-3.5-turbo")].

End Builder.

(** * Proofs *)

(** ** The two loops *)

Lemma extend_nil (g : Digraph) : extend g [] = g.
Proof. destruct g; unfold extend; simpl; now rewrite app_nil_r. Qed.

Lemma extend_extend (g : Digraph) (l1 l2 : list stmt) :
  extend (extend g l1) l2 = extend g (l1 ++ l2).
Proof. unfold extend; simpl; now rewrite app_assoc. Qed.

Lemma heap_eta (h : heap) :
  mkHeap (arg_object h) (extend (graph_object h) []) = h.
Proof. rewrite extend_nil; now destruct h. Qed.

Lemma appends_ret : appends (ret tt) [].
Proof. intros h; unfold ret; now rewrite heap_eta. Qed.

Lemma appends_seq (m k : M unit) (l1 l2 : list stmt) :
  appends m l1 -> appends k l2 -> appends (m ;; k) (l1 ++ l2).
Proof.
  intros Hm Hk h. unfold bind. rewrite Hm, Hk. simpl.
  now rewrite extend_extend.
Qed.

Lemma appends_lift {A : Type} (r : res A) (a : A) (k : A -> M unit)
    (l : list stmt) :
  r = inr a -> appends (k a) l -> appends (x <- lift r ;; k x) l.
Proof. intros -> Hk h. unfold bind, lift. apply Hk. Qed.

Lemma appends_graph_node (name : string) (attrs : list (string * string)) :
  appends (graph_node (JStr name) attrs) [Node (JStr name) attrs].
Proof. intros h; reflexivity. Qed.

Lemma appends_graph_edge (f t : string) :
  appends (graph_edge (JStr f) (JStr t)) [Edge (JStr f) (JStr t)].
Proof. intros h; reflexivity. Qed.

Lemma stops_lift {A B : Type} (r : res A) (e : exn) (k : A -> M B) :
  r = inl e -> stops (x <- lift r ;; k x) [] e.
Proof. intros -> h. unfold bind, lift. now rewrite heap_eta. Qed.

Lemma stops_lift_then {A B : Type} (r : res A) (a : A) (l : list stmt)
    (e : exn) (k : A -> M B) :
  r = inr a -> stops (k a) l e -> stops (x <- lift r ;; k x) l e.
Proof. intros -> Hk h. unfold bind, lift. apply Hk. Qed.

Lemma stops_first {A : Type} (m : M unit) (k : M A) (l : list stmt)
    (e : exn) :
  stops m l e -> stops (m ;; k) l e.
Proof. intros Hm h. unfold bind. now rewrite Hm. Qed.

Lemma stops_after {A : Type} (m : M unit) (k : M A) (l1 l2 : list stmt)
    (e : exn) :
  appends m l1 -> stops k l2 e -> stops (m ;; k) (l1 ++ l2) e.
Proof.
  intros Hm Hk h. unfold bind. rewrite Hm, Hk. simpl.
  now rewrite extend_extend.
Qed.

Lemma stops_graph_node (name : json) (attrs : list (string * string)) :
  is_str name = false -> stops (graph_node name attrs) [] TypeError.
Proof.
  intros H h. unfold graph_node, on_graph, node. rewrite H.
  now rewrite heap_eta.
Qed.

Lemma stops_graph_edge (f t : json) :
  is_str f && is_str t = false -> stops (graph_edge f t) [] AttributeError.
Proof.
  intros H h. unfold graph_edge, on_graph, edge. rewrite H.
  now rewrite heap_eta.
Qed.

Lemma is_str_JStr (v : json) : is_str v = true -> exists s, v = JStr s.
Proof. destruct v; try discriminate. intros _. now eexists. Qed.

Lemma appends_for_each {A B : Type} (view : A -> option B)
    (f : A -> M unit) (out : B -> list stmt) :
  (forall x y, view x = Some y -> appends (f x) (out y)) ->
  forall xs ys,
    traverse view xs = Some ys ->
    appends (for_each xs f) (flat_map out ys).
Proof.
  intros Hf; induction xs as [|x xs IH]; simpl; intros ys H.
  - injection H as <-. apply appends_ret.
  - destruct (view x) as [y|] eqn:Hx; try discriminate.
    destruct (traverse view xs) as [ys'|]; try discriminate.
    injection H as <-. simpl.
    apply appends_seq; [now apply Hf | now apply IH].
Qed.

(** A loop stops at its first failing turn, with the turns before it
    done and with what the failing turn did before it raised. *)
Lemma for_each_stops {A B : Type} (view : A -> option B)
    (f : A -> M unit) (out : B -> list stmt) (l : list stmt) (e : exn)
    (good : list A) (bad : A) (rest : list A) (ys : list B) :
  (forall x y, view x = Some y -> appends (f x) (out y)) ->
  traverse view good = Some ys ->
  stops (f bad) l e ->
  stops (for_each (good ++ bad :: rest) f) (flat_map out ys ++ l) e.
Proof.
  intros Hf Hgood Hbad. revert ys Hgood.
  induction good as [|x good IH]; simpl; intros ys Hgood.
  - injection Hgood as <-. simpl. now apply stops_first.
  - destruct (view x) as [y|] eqn:Hx; try discriminate.
    destruct (traverse view good) as [ys'|]; try discriminate.
    injection Hgood as <-. simpl. rewrite <- app_assoc.
    apply stops_after; [now apply Hf | now apply IH].
Qed.

Lemma traverse_Some {A : Type} (l : list A) : traverse Some l = Some l.
Proof. induction l as [|x l IH]; simpl; [|rewrite IH]; reflexivity. Qed.

Lemma flat_map_single {A B : Type} (f : A -> B) (l : list A) :
  flat_map (fun x => [f x]) l = map f l.
Proof. induction l as [|x l IH]; simpl; [|rewrite IH]; reflexivity. Qed.

Lemma node_view_getitem (node : json) (name : string) :
  node_view node = Some name ->
  getitem node (KStr "node_name") = inr (JStr name).
Proof.
  unfold node_view, node_name.
  destruct node as [| | | | |d]; simpl; try discriminate.
  destruct (lookup "node_name" d) as [[| | |s| |]|]; try discriminate.
  now intros [= ->].
Qed.

Lemma draw_node_appends (ep node : json) (name : string) :
  node_view node = Some name ->
  appends (draw_node ep node) [node_stmt ep (JStr name)].
Proof.
  intros H. apply node_view_getitem in H.
  unfold draw_node, node_stmt.
  apply (appends_lift _ (JStr name)); [exact H|].
  destruct (py_eq (JStr name) ep);
    (apply (appends_lift _ (JStr name)); [exact H|apply appends_graph_node]).
Qed.

Lemma draw_node_stops (ep node : json) :
  node_view node = None -> stops (draw_node ep node) [] (node_exn node).
Proof.
  unfold node_view, node_name, draw_node.
  destruct node as [| | | | |d]; try (intros _; now apply stops_lift).
  simpl node_exn.
  destruct (lookup "node_name" d) as [name|] eqn:Hn.
  - intros Hs.
    assert (G : getitem (JDict d) (KStr "node_name") = inr name)
      by (simpl; now rewrite Hn).
    assert (Hstr : is_str name = false) by (now destruct name).
    apply (stops_lift_then _ _ _ _ _ G).
    destruct (py_eq name ep);
      (apply (stops_lift_then _ _ _ _ _ G); now apply stops_graph_node).
  - intros _. apply stops_lift. simpl. now rewrite Hn.
Qed.

(** The loop over the targets of an edge does what [targets_run] says. *)
Lemma for_each_targets (d : list (string * json)) (ts : list json) :
  match targets_run (lookup "from" d) ts with
  | (l, None) =>
      appends
        (for_each ts (fun to_node =>
           from <- lift (getitem (JDict d) (KStr "from")) ;;
           graph_edge from to_node)) l
  | (l, Some e) =>
      stops
        (for_each ts (fun to_node =>
           from <- lift (getitem (JDict d) (KStr "from")) ;;
           graph_edge from to_node)) l e
  end.
Proof.
  induction ts as [|t ts IH]; cbn [targets_run for_each];
    [apply appends_ret|].
  destruct (lookup "from" d) as [f|] eqn:Hf.
  - assert (G : getitem (JDict d) (KStr "from") = inr f)
      by (simpl; now rewrite Hf).
    destruct (is_str f && is_str t) eqn:Hs.
    + apply andb_prop in Hs as [Hsf Hst].
      destruct (is_str_JStr _ Hsf) as [f' ->].
      destruct (is_str_JStr _ Hst) as [t' ->].
      destruct (targets_run (Some (JStr f')) ts) as [l [e|]].
      * apply (stops_after _ _ [_]); [|exact IH].
        apply (appends_lift _ _ _ _ G), appends_graph_edge.
      * apply (appends_seq _ _ [_]); [|exact IH].
        apply (appends_lift _ _ _ _ G), appends_graph_edge.
    + apply stops_first. apply (stops_lift_then _ _ _ _ _ G).
      now apply stops_graph_edge.
  - apply stops_first, stops_lift. simpl. now rewrite Hf.
Qed.

(** One turn of the loop over the edges does what [edge_run] says. *)
Lemma draw_edge_turn (e : json) :
  match edge_run e with
  | (l, None) => appends (draw_edge e) l
  | (l, Some x) => stops (draw_edge e) l x
  end.
Proof.
  destruct e as [| | | | |d]; simpl;
    try (unfold draw_edge; now apply stops_lift).
  destruct (lookup "to" d) as [t|] eqn:Ht.
  2:{ unfold draw_edge. apply stops_lift. simpl. now rewrite Ht. }
  assert (Gt : getitem (JDict d) (KStr "to") = inr t)
    by (simpl; now rewrite Ht).
  assert (Other :
    is_list t = false ->
    match
      match lookup "from" d with
      | Some f =>
          if is_str f && is_str t
          then ([Edge f t], None)
          else ([], Some AttributeError)
      | None => ([], Some KeyError)
      end
    with
    | (l, None) => appends (draw_edge (JDict d)) l
    | (l, Some x) => stops (draw_edge (JDict d)) l x
    end).
  { intros Hl. unfold draw_edge.
    destruct (lookup "from" d) as [f|] eqn:Hf.
    - assert (Gf : getitem (JDict d) (KStr "from") = inr f)
        by (simpl; now rewrite Hf).
      destruct (is_str f && is_str t) eqn:Hs.
      + apply andb_prop in Hs as [Hsf Hst].
        destruct (is_str_JStr _ Hsf) as [f' ->].
        destruct (is_str_JStr _ Hst) as [t' ->].
        apply (appends_lift _ _ _ _ Gt). simpl is_list. cbv iota.
        apply (appends_lift _ _ _ _ Gf), (appends_lift _ _ _ _ Gt).
        apply appends_graph_edge.
      + apply (stops_lift_then _ _ _ _ _ Gt). rewrite Hl.
        apply (stops_lift_then _ _ _ _ _ Gf).
        apply (stops_lift_then _ _ _ _ _ Gt).
        now apply stops_graph_edge.
    - apply (stops_lift_then _ _ _ _ _ Gt). rewrite Hl.
      apply stops_lift. simpl. now rewrite Hf. }
  destruct t as [| | | |ts|]; try (now apply Other).
  pose proof (for_each_targets d ts) as H.
  unfold draw_edge.
  destruct (targets_run (lookup "from" d) ts) as [l [x|]].
  - apply (stops_lift_then _ _ _ _ _ Gt). simpl is_list. cbv iota.
    apply (stops_lift_then _ _ _ _ _ Gt).
    now apply (stops_lift_then _ ts).
  - apply (appends_lift _ _ _ _ Gt). simpl is_list. cbv iota.
    apply (appends_lift _ _ _ _ Gt).
    now apply (appends_lift _ ts).
Qed.

Lemma edge_view_appends (e : json) (l : list stmt) :
  edge_view e = Some l -> appends (draw_edge e) l.
Proof.
  unfold edge_view. pose proof (draw_edge_turn e) as H.
  destruct (edge_run e) as [l' [x|]]; [discriminate|].
  now intros [= <-].
Qed.

Lemma edge_run_stops (e : json) (l : list stmt) (x : exn) :
  edge_run e = (l, Some x) -> stops (draw_edge e) l x.
Proof. intros H. pose proof (draw_edge_turn e) as T. now rewrite H in T. Qed.

(** ** From the types of the contract to the turns of the loops *)

Lemma typed_names_strs (ns : list json) :
  typed_names ns = true -> exists xs, ns = map JStr xs.
Proof.
  unfold typed_names. induction ns as [|n ns IH]; simpl.
  - now exists [].
  - intros H. apply andb_prop in H as [Hn Hns].
    destruct (is_str_JStr _ Hn) as [x ->].
    destruct (IH Hns) as [xs ->]. now exists (x :: xs).
Qed.

Lemma names_view (nodes : list json) (xs : list string) :
  traverse node_name nodes = Some (map JStr xs) ->
  traverse node_view nodes = Some xs.
Proof.
  revert xs; induction nodes as [|n nodes IH]; simpl; intros xs H.
  - destruct xs; [reflexivity|discriminate].
  - unfold node_view at 1.
    destruct (node_name n) as [v|]; try discriminate.
    destruct (traverse node_name nodes) as [vs|]; try discriminate.
    destruct xs as [|x xs]; try discriminate.
    injection H as -> ->. now rewrite (IH xs eq_refl).
Qed.

Lemma targets_run_strs (f : string) (ts : list json) :
  forallb is_str ts = true ->
  targets_run (Some (JStr f)) ts = (map (Edge (JStr f)) ts, None).
Proof.
  induction ts as [|t ts IH]; simpl; [reflexivity|].
  intros H. apply andb_prop in H as [Ht Hts].
  now rewrite Ht, (IH Hts).
Qed.

Lemma typed_end_view (e : json) (f t : json) :
  edge_ends e = Some (f, t) ->
  typed_end (f, t) = true ->
  edge_view e = Some (edge_stmts (f, t)).
Proof.
  destruct e as [| | | | |d]; simpl; try discriminate.
  destruct (lookup "from" d) as [f'|] eqn:Hf; try discriminate.
  destruct (lookup "to" d) as [t'|] eqn:Ht; try discriminate.
  intros [= -> ->]. unfold typed_end. simpl. intros H.
  apply andb_prop in H as [Hsf Hwt].
  destruct (is_str_JStr _ Hsf) as [f' ->].
  unfold edge_view, edge_run. rewrite Ht, Hf.
  destruct t as [| | |s|ts|]; try discriminate.
  - reflexivity.
  - simpl in Hwt. now rewrite (targets_run_strs _ _ Hwt).
Qed.

Lemma ends_view (edges : list json) (es : list (json * json)) :
  traverse edge_ends edges = Some es ->
  typed_ends es = true ->
  traverse edge_view edges = Some (map edge_stmts es).
Proof.
  unfold typed_ends.
  revert es; induction edges as [|e edges IH]; simpl; intros es H Ht.
  - now injection H as <-.
  - destruct (edge_ends e) as [[f t]|] eqn:He; try discriminate.
    destruct (traverse edge_ends edges) as [es'|]; try discriminate.
    injection H as <-. simpl in Ht. apply andb_prop in Ht as [Ht1 Ht2].
    now rewrite (typed_end_view _ _ _ He Ht1), (IH es' eq_refl Ht2).
Qed.

(** ** The two loops together *)

Lemma draw_graph_returns (nodes edges ep : json)
    (items : list json) (xs : list string) (es : list json)
    (ls : list (list stmt)) :
  iter nodes = inr items ->
  traverse node_view items = Some xs ->
  iter edges = inr es ->
  traverse edge_view es = Some ls ->
  appends (draw_graph nodes edges ep)
    (map (node_stmt ep) (map JStr xs) ++ concat ls).
Proof.
  intros Hi Hn He Hl. unfold draw_graph.
  apply (appends_lift _ _ _ _ Hi).
  apply appends_seq.
  - rewrite map_map, <- flat_map_single.
    apply (appends_for_each node_view); [|exact Hn].
    intros x y; apply draw_node_appends.
  - apply (appends_lift _ _ _ _ He).
    rewrite <- (map_id ls), <- flat_map_concat_map.
    apply (appends_for_each edge_view); [|exact Hl].
    intros x y; apply edge_view_appends.
Qed.

Lemma draw_graph_nodes_not_iterable (nodes edges ep : json) (e : exn) :
  iter nodes = inl e -> stops (draw_graph nodes edges ep) [] e.
Proof. intros H. unfold draw_graph. now apply stops_lift. Qed.

Lemma draw_graph_node_stops (nodes edges ep : json)
    (good : list json) (bad : json) (rest : list json) (xs : list string) :
  iter nodes = inr (good ++ bad :: rest) ->
  traverse node_view good = Some xs ->
  node_view bad = None ->
  stops (draw_graph nodes edges ep)
    (map (node_stmt ep) (map JStr xs)) (node_exn bad).
Proof.
  intros Hi Hg Hb. unfold draw_graph.
  apply (stops_lift_then _ _ _ _ _ Hi). apply stops_first.
  rewrite map_map, <- flat_map_single, <- (app_nil_r (flat_map _ xs)).
  apply (for_each_stops node_view); [|exact Hg|now apply draw_node_stops].
  intros x y; apply draw_node_appends.
Qed.

Lemma draw_graph_edges_not_iterable (nodes edges ep : json)
    (items : list json) (xs : list string) (e : exn) :
  iter nodes = inr items ->
  traverse node_view items = Some xs ->
  iter edges = inl e ->
  stops (draw_graph nodes edges ep) (map (node_stmt ep) (map JStr xs)) e.
Proof.
  intros Hi Hn He. unfold draw_graph.
  apply (stops_lift_then _ _ _ _ _ Hi).
  rewrite <- (app_nil_r (map _ (map JStr xs))).
  apply stops_after; [|now apply stops_lift].
  rewrite map_map, <- flat_map_single.
  apply (appends_for_each node_view); [|exact Hn].
  intros x y; apply draw_node_appends.
Qed.

Lemma draw_graph_edge_stops (nodes edges ep : json)
    (items : list json) (xs : list string) (good : list json) (bad : json)
    (rest : list json) (ls : list (list stmt)) (l : list stmt) (e : exn) :
  iter nodes = inr items ->
  traverse node_view items = Some xs ->
  iter edges = inr (good ++ bad :: rest) ->
  traverse edge_view good = Some ls ->
  edge_run bad = (l, Some e) ->
  stops (draw_graph nodes edges ep)
    (map (node_stmt ep) (map JStr xs) ++ concat ls ++ l) e.
Proof.
  intros Hi Hn He Hg Hb. unfold draw_graph.
  apply (stops_lift_then _ _ _ _ _ Hi).
  apply stops_after.
  - rewrite map_map, <- flat_map_single.
    apply (appends_for_each node_view); [|exact Hn].
    intros x y; apply draw_node_appends.
  - apply (stops_lift_then _ _ _ _ _ He).
    rewrite <- (map_id ls), <- flat_map_concat_map.
    apply (for_each_stops edge_view); [|exact Hg|now apply edge_run_stops].
    intros x y; apply edge_view_appends.
Qed.

(** ** From the loops to the method *)

Lemma get_dict (d : list (string * json)) (k : string) (default : json) :
  get (JDict d) k default =
    inr (match lookup k d with Some x => x | None => default end).
Proof. simpl; now destruct (lookup k d). Qed.

Lemma items_of_iter (field : option json) (l : list json) :
  items_of field = Some l ->
  iter (match field with Some x => x | None => JList [] end) = inr l.
Proof.
  destruct field as [[| | | | |]|]; simpl; try discriminate;
    now intros [= ->].
Qed.

Lemma iter_items_of (field : option json) (items : list json) :
  items_of field = Some items ->
  iter (value_or field (JList [])) = inr items.
Proof. apply items_of_iter. Qed.

Lemma convert_body_config (json_data gc : json) (g : Digraph) :
  graph_config json_data = inr gc ->
  convert_body (mkHeap json_data g) =
    (nodes <- lift (get gc "nodes" (JList [])) ;;
     edges <- lift (get gc "edges" (JList [])) ;;
     entry_point <- lift (get gc "entry_point" JNull) ;;
     draw_graph nodes edges entry_point) (mkHeap json_data g).
Proof.
  unfold graph_config, convert_body. intros H.
  destruct (getitem json_data (KStr "text")) as [|text] eqn:Ht;
    try discriminate.
  unfold bind at 1, read_arg. cbv beta iota. simpl arg_object.
  unfold bind at 1, lift at 1. rewrite Ht.
  unfold bind at 1, lift at 1. now rewrite H.
Qed.

Lemma new_known (known : string -> bool) (fmt : string) :
  known fmt = true ->
  Graphviz.new known "ScrapeGraphAI Generated Graph" fmt
    [("color", "lightblue2"); ("style", "filled")] = inr (fresh_graph fmt).
Proof. intros H. unfold Graphviz.new. now rewrite H. Qed.

Lemma ended_draw_graph (known : string -> bool) (json_data : json)
    (cfg : list (string * json)) (fmt : string) :
  known fmt = true ->
  graph_config json_data = inr (JDict cfg) ->
  ended (convert_json_to_graphviz true known json_data fmt) =
    outcome_of
      (draw_graph (value_or (lookup "nodes" cfg) (JList []))
         (value_or (lookup "edges" cfg) (JList []))
         (value_or (lookup "entry_point" cfg) JNull)
         (mkHeap json_data (fresh_graph fmt))).
Proof.
  intros Hk Hc. unfold convert_json_to_graphviz.
  rewrite (new_known _ _ Hk).
  rewrite (convert_body_config _ _ _ Hc), !get_dict.
  do 3 (unfold bind at 1, lift at 1; cbv beta iota).
  unfold value_or, outcome_of.
  destruct (draw_graph _ _ _ _) as [h [e|u]]; reflexivity.
Qed.

Lemma outcome_appends (m : M unit) (l : list stmt) (json_data : json)
    (fmt : string) :
  appends m l ->
  outcome_of (m (mkHeap json_data (fresh_graph fmt))) =
    Returned (extend (fresh_graph fmt) l).
Proof. intros H. now rewrite H. Qed.

Lemma outcome_stops (m : M unit) (l : list stmt) (e : exn)
    (json_data : json) (fmt : string) :
  stops m l e ->
  outcome_of (m (mkHeap json_data (fresh_graph fmt))) = Raised e l.
Proof. intros H. now rewrite H. Qed.

(** ** The whole method on a description of the documented shape *)

Lemma convert_shaped (known : string -> bool) (json_data : json)
    (cfg : list (string * json)) (s : shape) (fmt : string) :
  known fmt = true ->
  graph_config json_data = inr (JDict cfg) ->
  shape_of cfg = Some s ->
  typed s = true ->
  ended (convert_json_to_graphviz true known json_data fmt) =
    Returned (extend (fresh_graph fmt) (drawing s)).
Proof.
  intros Hk Hc Hs Ht. rewrite (ended_draw_graph _ _ _ _ Hk Hc).
  unfold shape_of in Hs.
  destruct (items_of (lookup "nodes" cfg)) as [nodes|] eqn:Hn;
    try discriminate.
  destruct (items_of (lookup "edges" cfg)) as [edges|] eqn:He;
    try discriminate.
  destruct (traverse node_name nodes) as [ns|] eqn:Hns; try discriminate.
  destruct (traverse edge_ends edges) as [es|] eqn:Hes; try discriminate.
  injection Hs as <-. unfold typed in Ht. simpl in Ht.
  apply andb_prop in Ht as [Htn Hte].
  destruct (typed_names_strs _ Htn) as [xs ->].
  apply outcome_appends. unfold drawing, entry_value. simpl.
  rewrite flat_map_concat_map.
  apply (draw_graph_returns _ _ _ nodes xs edges).
  - now apply iter_items_of.
  - now apply names_view.
  - now apply iter_items_of.
  - now apply ends_view.
Qed.

(** ** Reading the calls back from a body *)

Lemma node_calls_app (l1 l2 : list stmt) :
  node_calls (l1 ++ l2) = node_calls l1 ++ node_calls l2.
Proof.
  induction l1 as [|[n a|f t] l1 IH]; simpl; [|rewrite IH|]; auto.
Qed.

Lemma edge_calls_app (l1 l2 : list stmt) :
  edge_calls (l1 ++ l2) = edge_calls l1 ++ edge_calls l2.
Proof.
  induction l1 as [|[n a|f t] l1 IH]; simpl; [| |rewrite IH]; auto.
Qed.

Lemma node_calls_nodes (ep : json) (ns : list json) :
  node_calls (map (node_stmt ep) ns) =
    map (fun n => (n, if py_eq n ep then doublecircle else [])) ns.
Proof. induction ns as [|n ns IH]; simpl; [|rewrite IH]; reflexivity. Qed.

Lemma edge_calls_nodes (ep : json) (ns : list json) :
  edge_calls (map (node_stmt ep) ns) = [].
Proof. induction ns as [|n ns IH]; simpl; auto. Qed.

Lemma node_calls_edges (es : list (json * json)) :
  node_calls (flat_map edge_stmts es) = [].
Proof.
  induction es as [|[f t] es IH]; simpl; auto.
  rewrite node_calls_app, IH, app_nil_r. unfold edge_stmts; simpl.
  induction (targets t) as [|x xs IHx]; simpl; auto.
Qed.

Lemma edge_calls_edges (es : list (json * json)) :
  edge_calls (flat_map edge_stmts es) =
    flat_map (fun e => map (pair (fst e)) (targets (snd e))) es.
Proof.
  induction es as [|[f t] es IH]; simpl; auto.
  rewrite edge_calls_app, IH. f_equal. unfold edge_stmts; simpl.
  induction (targets t) as [|x xs IHx]; simpl; [|rewrite IHx]; auto.
Qed.

Lemma node_calls_drawing (s : shape) :
  node_calls (drawing s) =
    map (fun n => (n, if py_eq n (entry_value s) then doublecircle else []))
      (names s).
Proof.
  unfold drawing.
  now rewrite node_calls_app, node_calls_nodes, node_calls_edges, app_nil_r.
Qed.

Lemma edge_calls_drawing (s : shape) :
  edge_calls (drawing s) =
    flat_map (fun e => map (pair (fst e)) (targets (snd e))) (ends s).
Proof.
  unfold drawing.
  now rewrite edge_calls_app, edge_calls_nodes, edge_calls_edges.
Qed.

Lemma body_fresh (fmt : string) (l : list stmt) :
  body (extend (fresh_graph fmt) l) = l.
Proof. reflexivity. Qed.

(** Among distinct names the entry point is met once. *)
Lemma filter_entry_point (ep : string) (ns : list string) :
  NoDup ns -> In ep ns ->
  filter highlighted
    (map (fun n => (JStr n, if String.eqb n ep then doublecircle else []))
       ns) =
    [(JStr ep, doublecircle)].
Proof.
  induction 1 as [|n ns Hn Hnd IH]; simpl; [tauto|].
  intros [->|Hin].
  - rewrite String.eqb_refl. simpl. f_equal.
    clear IH Hnd. induction ns as [|m ns IH]; simpl; auto.
    destruct (String.eqb_spec m ep) as [->|Hm].
    + exfalso; apply Hn; now left.
    + simpl. apply IH. intros H; apply Hn; now right.
  - destruct (String.eqb_spec n ep) as [->|Hm]; [contradiction|].
    simpl. now apply IH.
Qed.

(** When no name equals the entry point, every node is drawn plain. *)
Lemma nodes_all_plain (ep : json) (ns : list string) :
  (forall n, In n ns -> py_eq (JStr n) ep = false) ->
  map (node_stmt ep) (map JStr ns) = map (fun n => Node (JStr n) []) ns.
Proof.
  induction ns as [|n ns IH]; intros H; [reflexivity|].
  change (node_stmt ep (JStr n) :: map (node_stmt ep) (map JStr ns) =
          Node (JStr n) [] :: map (fun n => Node (JStr n) []) ns).
  unfold node_stmt at 1. rewrite (H n) by now left.
  f_equal. apply IH. intros m Hm; apply H; now right.
Qed.

Lemma typed_names_map (ns : list string) : typed_names (map JStr ns) = true.
Proof. unfold typed_names. induction ns; simpl; auto. Qed.

Lemma typed_intro (s : shape) (ns : list string) :
  names s = map JStr ns -> typed_ends (ends s) = true -> typed s = true.
Proof.
  intros Hn He. unfold typed. now rewrite Hn, typed_names_map, He.
Qed.

(** ** The argument object is only read *)

Lemma preserves_ret {A : Type} (a : A) : preserves_arg (ret a).
Proof. intros h; reflexivity. Qed.

Lemma preserves_lift {A : Type} (r : res A) : preserves_arg (lift r).
Proof. intros h; reflexivity. Qed.

Lemma preserves_read_arg : preserves_arg read_arg.
Proof. intros h; reflexivity. Qed.

Lemma preserves_on_graph (call : Digraph -> res Digraph) :
  preserves_arg (on_graph call).
Proof.
  intros h. unfold on_graph. now destruct (call (graph_object h)).
Qed.

Lemma preserves_graph_node (n : json) (a : list (string * string)) :
  preserves_arg (graph_node n a).
Proof. apply preserves_on_graph. Qed.

Lemma preserves_graph_edge (f t : json) : preserves_arg (graph_edge f t).
Proof. apply preserves_on_graph. Qed.

Lemma preserves_bind {A B : Type} (m : M A) (k : A -> M B) :
  preserves_arg m -> (forall a, preserves_arg (k a)) ->
  preserves_arg (bind m k).
Proof.
  intros Hm Hk h. unfold bind. specialize (Hm h).
  destruct (m h) as [h' [e|a]]; simpl in *; auto.
  now rewrite Hk.
Qed.

Lemma preserves_for_each {A : Type} (f : A -> M unit) (xs : list A) :
  (forall x, preserves_arg (f x)) -> preserves_arg (for_each xs f).
Proof.
  intros Hf; induction xs as [|x xs IH]; simpl.
  - apply preserves_ret.
  - apply preserves_bind; auto.
Qed.

Create HintDb frame.
#[local] Hint Resolve preserves_ret preserves_lift preserves_read_arg
  preserves_graph_node preserves_graph_edge preserves_for_each : frame.

Ltac frame :=
  repeat first
    [ progress auto with frame
    | apply preserves_bind; [|intros ?]
    | match goal with |- preserves_arg (if ?b then _ else _) => destruct b end
    | apply preserves_for_each; intros ? ].

Lemma preserves_draw_node (ep node : json) :
  preserves_arg (draw_node ep node).
Proof. unfold draw_node. frame. Qed.

Lemma preserves_draw_edge (e : json) : preserves_arg (draw_edge e).
Proof. unfold draw_edge. frame. Qed.

Lemma preserves_convert_body : preserves_arg convert_body.
Proof.
  unfold convert_body, draw_graph. frame.
Qed.

Lemma arg_after_convert (installed : bool) (known : string -> bool)
    (json_data : json) (fmt : string) :
  arg_after (convert_json_to_graphviz installed known json_data fmt) =
    json_data.
Proof.
  unfold convert_json_to_graphviz. destruct installed; [|reflexivity].
  destruct (Graphviz.new _ _ _ _) as [e|g]; [reflexivity|].
  pose proof (preserves_convert_body (mkHeap json_data g)) as H.
  destruct (convert_body _) as [h' [e|u]]; exact H.
Qed.

(** ** The graph drawn depends on the configuration only *)

Lemma blind_ret {A : Type} (a : A) : arg_blind (ret a).
Proof. intros h1 h2 H; split; [exact H|reflexivity]. Qed.

Lemma blind_lift {A : Type} (r : res A) : arg_blind (lift r).
Proof. intros h1 h2 H; split; [exact H|reflexivity]. Qed.

Lemma blind_on_graph (call : Digraph -> res Digraph) :
  arg_blind (on_graph call).
Proof.
  intros h1 h2 H. unfold on_graph. rewrite H.
  destruct (call (graph_object h2)); split; simpl; auto.
Qed.

Lemma blind_graph_node (n : json) (a : list (string * string)) :
  arg_blind (graph_node n a).
Proof. apply blind_on_graph. Qed.

Lemma blind_graph_edge (f t : json) : arg_blind (graph_edge f t).
Proof. apply blind_on_graph. Qed.

Lemma blind_bind {A B : Type} (m : M A) (k : A -> M B) :
  arg_blind m -> (forall a, arg_blind (k a)) -> arg_blind (bind m k).
Proof.
  intros Hm Hk h1 h2 H. unfold bind.
  destruct (Hm h1 h2 H) as [Hg Hr].
  destruct (m h1) as [h1' r1], (m h2) as [h2' r2]; simpl in *; subst r2.
  destruct r1 as [e|a]; [split; [exact Hg|reflexivity]|now apply Hk].
Qed.

Lemma blind_for_each {A : Type} (f : A -> M unit) (xs : list A) :
  (forall x, arg_blind (f x)) -> arg_blind (for_each xs f).
Proof.
  intros Hf; induction xs as [|x xs IH]; simpl.
  - apply blind_ret.
  - apply blind_bind; auto.
Qed.

Ltac blind :=
  repeat first
    [ apply blind_ret | apply blind_lift
    | apply blind_graph_node | apply blind_graph_edge
    | apply blind_bind; [|intros ?]
    | match goal with |- arg_blind (if ?b then _ else _) => destruct b end
    | apply blind_for_each; intros ? ].

Lemma blind_draw_graph (nodes edges entry_point : json) :
  arg_blind (draw_graph nodes edges entry_point).
Proof. unfold draw_graph, draw_node, draw_edge. blind. Qed.

(** Two inputs whose configurations answer the three [get] calls alike
    end alike. *)
Lemma ended_config (known : string -> bool) (j1 j2 gc1 gc2 : json)
    (fmt : string) :
  graph_config j1 = inr gc1 ->
  graph_config j2 = inr gc2 ->
  (forall k d, In (k, d) defaults -> get gc1 k d = get gc2 k d) ->
  ended (convert_json_to_graphviz true known j1 fmt) =
    ended (convert_json_to_graphviz true known j2 fmt).
Proof.
  intros H1 H2 Hget. unfold convert_json_to_graphviz.
  destruct (Graphviz.new _ _ _ _) as [e|g0]; [reflexivity|].
  rewrite (convert_body_config _ _ _ H1), (convert_body_config _ _ _ H2).
  rewrite !(Hget "nodes"), !(Hget "edges"), !(Hget "entry_point")
    by (unfold defaults; simpl; tauto).
  match goal with |- context [?m (mkHeap j1 ?g)] =>
    assert (Hb : arg_blind m)
      by (blind; apply blind_draw_graph);
    destruct (Hb (mkHeap j1 g) (mkHeap j2 g) eq_refl) as [Hg Hr];
    destruct (m (mkHeap j1 g)) as [h1 r1];
    destruct (m (mkHeap j2 g)) as [h2 r2]
  end.
  simpl in Hg, Hr. subst r2. destruct r1; simpl; now rewrite Hg.
Qed.

Lemma lookup_app (k : string) (d e : list (string * json)) :
  lookup k (d ++ e) =
    match lookup k d with
    | Some v => Some v
    | None => lookup k e
    end.
Proof.
  induction d as [|[k' v] d IH]; simpl; [reflexivity|].
  now destruct (String.eqb k k').
Qed.

(** Writing a default under a key that is missing changes no answer of
    the three [get] calls. *)
Lemma get_default_added (cfg : list (string * json)) (k : string)
    (dv : json) :
  In (k, dv) defaults ->
  lookup k cfg = None ->
  forall k' d, In (k', d) defaults ->
    get (JDict cfg) k' d = get (JDict (cfg ++ [(k, dv)])) k' d.
Proof.
  intros Hk Hnone k' d Hk'. simpl. rewrite lookup_app. simpl.
  destruct (String.eqb_spec k' k) as [->|Hne].
  - rewrite Hnone. f_equal.
    unfold defaults in Hk, Hk'. simpl in Hk, Hk'.
    destruct Hk as [Hk|[Hk|[Hk|[]]]];
      destruct Hk' as [Hk'|[Hk'|[Hk'|[]]]]; congruence.
  - now destruct (lookup k' cfg).
Qed.

(** ** The claims *)

(** C1.  On a valid description (node names are distinct strings, the
    entry point is one of them, the edges run between strings) and with a
    format graphviz knows, the method makes one [node] call per node, in
    the order of the description; the call for the entry point carries
    the doublecircle shape, every other call carries no attribute, and
    exactly one call is highlighted. *)
Theorem nodes_drawn_once_entry_point_highlighted
    (known : string -> bool) (json_data : json)
    (cfg : list (string * json)) (s : shape)
    (ns : list string) (ep fmt : string) :
  known fmt = true ->
  graph_config json_data = inr (JDict cfg) ->
  shape_of cfg = Some s ->
  names s = map JStr ns ->
  typed_ends (ends s) = true ->
  NoDup ns ->
  entry s = Some (JStr ep) ->
  In ep ns ->
  exists g,
    ended (convert_json_to_graphviz true known json_data fmt) =
      Returned g /\
    node_calls (body g) =
      map (fun n => (JStr n, if String.eqb n ep then doublecircle else []))
        ns /\
    filter highlighted (node_calls (body g)) = [(JStr ep, doublecircle)].
Proof.
  intros Hk Hc Hs Hn Ht Hnd He Hin.
  exists (extend (fresh_graph fmt) (drawing s)).
  rewrite (convert_shaped _ _ _ _ fmt Hk Hc Hs (typed_intro _ _ Hn Ht)).
  rewrite body_fresh, node_calls_drawing.
  unfold entry_value. rewrite He, Hn, map_map. simpl.
  split; [reflexivity|split; [reflexivity|]].
  now apply filter_entry_point.
Qed.

Lemma nodes_drawn_once_entry_point_highlighted_witness :
  exists g,
    ended (convert_json_to_graphviz true Sample.formats
             (Sample.wrapped Sample.fetch_parse) "pdf") = Returned g /\
    node_calls (body g) =
      [(JStr "fetch", doublecircle); (JStr "parse", [])] /\
    filter highlighted (node_calls (body g)) =
      [(JStr "fetch", doublecircle)].
Proof.
  apply (nodes_drawn_once_entry_point_highlighted Sample.formats
           (Sample.wrapped Sample.fetch_parse) Sample.fetch_parse
           (mkShape [JStr "fetch"; JStr "parse"]
              [(JStr "fetch", JStr "parse")] (Some (JStr "fetch")))
           ["fetch"; "parse"] "fetch" "pdf").
  - reflexivity.
  - reflexivity.
  - reflexivity.
  - reflexivity.
  - reflexivity.
  - repeat constructor; simpl; intuition discriminate.
  - reflexivity.
  - simpl; auto.
Defined.

Lemma typed_ends_targets (es : list (string * target)) :
  typed_ends (map (fun e => (JStr (fst e), target_json (snd e))) es) = true.
Proof.
  unfold typed_ends. induction es as [|[f t] es IH]; simpl; [reflexivity|].
  rewrite IH. unfold typed_end. simpl. destruct t as [x|l]; simpl; auto.
  rewrite andb_true_r. induction l; simpl; auto.
Qed.

(** C2.  With node names that are strings and a format graphviz knows,
    the edges are walked in the order of the description; an edge whose
    "to" is a single name gives one [edge] call, an edge whose "to" is a
    sequence of k names gives k calls, one per target and in the order of
    the sequence. *)
Theorem edges_drawn_in_order_with_fan_out
    (known : string -> bool) (json_data : json)
    (cfg : list (string * json)) (s : shape)
    (es : list (string * target)) (fmt : string) :
  known fmt = true ->
  graph_config json_data = inr (JDict cfg) ->
  shape_of cfg = Some s ->
  typed_names (names s) = true ->
  ends s = map (fun e => (JStr (fst e), target_json (snd e))) es ->
  exists g,
    ended (convert_json_to_graphviz true known json_data fmt) =
      Returned g /\
    edge_calls (body g) =
      flat_map (fun e =>
        match snd e with
        | Single name => [(JStr (fst e), JStr name)]
        | Sequence l => map (fun name => (JStr (fst e), JStr name)) l
        end) es /\
    length (edge_calls (body g)) =
      list_sum (map (fun e => length (target_names (snd e))) es).
Proof.
  intros Hk Hc Hs Hn He.
  exists (extend (fresh_graph fmt) (drawing s)).
  assert (Ht : typed s = true).
  { unfold typed. now rewrite Hn, He, typed_ends_targets. }
  rewrite (convert_shaped _ _ _ _ fmt Hk Hc Hs Ht).
  rewrite body_fresh, edge_calls_drawing.
  rewrite He. clear.
  assert (H : flat_map (fun e => map (pair (fst e)) (targets (snd e)))
            (map (fun e => (JStr (fst e), target_json (snd e))) es) =
          flat_map (fun e =>
            match snd e with
            | Single name => [(JStr (fst e), JStr name)]
            | Sequence l => map (fun name => (JStr (fst e), JStr name)) l
            end) es).
  { induction es as [|[f t] es IH]; simpl; [reflexivity|].
    rewrite IH. f_equal. destruct t; simpl; [reflexivity|].
    now rewrite map_map. }
  rewrite H. split; [reflexivity|split; [reflexivity|]].
  clear H. induction es as [|[f t] es IH]; simpl; [reflexivity|].
  rewrite length_app, IH. f_equal.
  destruct t; simpl; [reflexivity|]. now rewrite length_map.
Qed.

Lemma edges_drawn_in_order_with_fan_out_witness :
  exists g,
    ended (convert_json_to_graphviz true Sample.formats
             (Sample.wrapped Sample.fan_out) "pdf") = Returned g /\
    edge_calls (body g) =
      [(JStr "fetch", JStr "parse"); (JStr "fetch", JStr "store")] /\
    length (edge_calls (body g)) = 2.
Proof.
  apply (edges_drawn_in_order_with_fan_out Sample.formats
           (Sample.wrapped Sample.fan_out) Sample.fan_out
           (mkShape [JStr "fetch"; JStr "parse"; JStr "store"]
              [(JStr "fetch", JList [JStr "parse"; JStr "store"])]
              (Some (JStr "fetch")))
           [("fetch", Sequence ["parse"; "store"])] "pdf");
    reflexivity.
Defined.

(** C3.  Once the graph is made (graphviz knows the format),
    [json_data["text"][0]] is evaluated before anything is read from the
    configuration or drawn.  A mapping without the key "text" ends the
    call with [KeyError], one whose "text" is an empty list or an empty
    string ends it with [IndexError], in each case with no [node] or
    [edge] call made; the first covers an input laid out as the
    documented contract with no "text" wrapper around it. *)
Theorem missing_text_raises_before_any_call
    (known : string -> bool) (d : list (string * json)) (fmt : string) :
  known fmt = true ->
  (lookup "text" d = None ->
   convert_json_to_graphviz true known (JDict d) fmt =
     mkResult (Raised KeyError []) (JDict d)) /\
  (lookup "text" d = Some (JList []) ->
   convert_json_to_graphviz true known (JDict d) fmt =
     mkResult (Raised IndexError []) (JDict d)) /\
  (lookup "text" d = Some (JStr EmptyString) ->
   convert_json_to_graphviz true known (JDict d) fmt =
     mkResult (Raised IndexError []) (JDict d)) /\
  (forall nodes edges entry_point : json,
     ended (convert_json_to_graphviz true known
              (JDict [("nodes", nodes); ("edges", edges);
                      ("entry_point", entry_point)]) fmt) =
       Raised KeyError []).
Proof.
  intros Hk. unfold convert_json_to_graphviz. rewrite (new_known _ _ Hk).
  unfold convert_body.
  split; [|split; [|split]].
  - intros H. unfold bind, read_arg, lift. simpl. now rewrite H.
  - intros H. unfold bind, read_arg, lift. simpl. now rewrite H.
  - intros H. unfold bind, read_arg, lift. simpl. now rewrite H.
  - reflexivity.
Qed.

Lemma missing_text_raises_before_any_call_witness :
  convert_json_to_graphviz true Sample.formats Sample.unwrapped "pdf" =
    mkResult (Raised KeyError []) Sample.unwrapped /\
  convert_json_to_graphviz true Sample.formats
    (JDict [("text", JList [])]) "pdf" =
    mkResult (Raised IndexError []) (JDict [("text", JList [])]) /\
  convert_json_to_graphviz true Sample.formats
    (JDict [("text", JStr EmptyString)]) "pdf" =
    mkResult (Raised IndexError []) (JDict [("text", JStr EmptyString)]).
Proof.
  split; [|split].
  - apply (proj1 (missing_text_raises_before_any_call Sample.formats
                    Sample.fetch_parse "pdf" eq_refl)).
    reflexivity.
  - apply (proj1 (proj2 (missing_text_raises_before_any_call
                           Sample.formats [("text", JList [])] "pdf"
                           eq_refl))).
    reflexivity.
  - apply (proj1 (proj2 (proj2 (missing_text_raises_before_any_call
                                  Sample.formats
                                  [("text", JStr EmptyString)] "pdf"
                                  eq_refl)))).
    reflexivity.
Defined.

(** C4, as the specification states it, fails: with the "entry_point" key
    absent, and with an empty "entry_point", the call returns a graph. *)
Lemma absent_or_empty_entry_point_returns_a_graph :
  ended (convert_json_to_graphviz true Sample.formats
           (Sample.wrapped Sample.no_entry_point) "pdf") =
    Returned
      (mkDigraph "ScrapeGraphAI Generated Graph" "pdf"
         [("color", "lightblue2"); ("style", "filled")]
         [Node (JStr "fetch") []; Node (JStr "parse") [];
          Edge (JStr "fetch") (JStr "parse")]) /\
  ended (convert_json_to_graphviz true Sample.formats
           (Sample.wrapped Sample.empty_entry_point) "pdf") =
    Returned
      (mkDigraph "ScrapeGraphAI Generated Graph" "pdf"
         [("color", "lightblue2"); ("style", "filled")]
         [Node (JStr "fetch") []; Node (JStr "parse") [];
          Edge (JStr "fetch") (JStr "parse")]).
Proof. split; reflexivity. Qed.

(** C4, amended.  With the "entry_point" key absent or its value the
    empty string, the nodes named by non-empty strings, the edges running
    between strings and a format graphviz knows, the call raises nothing:
    it returns the graph with every node drawn without attribute,
    followed by the edges. *)
Theorem absent_or_empty_entry_point_draws_all_plain
    (known : string -> bool) (json_data : json)
    (cfg : list (string * json)) (s : shape)
    (ns : list string) (fmt : string) :
  known fmt = true ->
  graph_config json_data = inr (JDict cfg) ->
  shape_of cfg = Some s ->
  names s = map JStr ns ->
  typed_ends (ends s) = true ->
  entry s = None \/ entry s = Some (JStr EmptyString) ->
  ~ In EmptyString ns ->
  ended (convert_json_to_graphviz true known json_data fmt) =
    Returned
      (extend (fresh_graph fmt)
         (map (fun n => Node (JStr n) []) ns ++
          flat_map edge_stmts (ends s))).
Proof.
  intros Hk Hc Hs Hn Ht He Hne.
  rewrite (convert_shaped _ _ _ _ fmt Hk Hc Hs (typed_intro _ _ Hn Ht)).
  unfold drawing. rewrite Hn, nodes_all_plain; [reflexivity|].
  intros n Hin. unfold entry_value.
  destruct He as [-> | ->]; simpl; [reflexivity|].
  destruct (String.eqb_spec n EmptyString);
    [subst; contradiction|reflexivity].
Qed.

Lemma absent_or_empty_entry_point_draws_all_plain_witness :
  ended (convert_json_to_graphviz true Sample.formats
           (Sample.wrapped Sample.no_entry_point) "svg") =
    Returned
      (extend (fresh_graph "svg")
         [Node (JStr "fetch") []; Node (JStr "parse") [];
          Edge (JStr "fetch") (JStr "parse")]).
Proof.
  apply (absent_or_empty_entry_point_draws_all_plain Sample.formats
           (Sample.wrapped Sample.no_entry_point) Sample.no_entry_point
           (mkShape [JStr "fetch"; JStr "parse"]
              [(JStr "fetch", JStr "parse")] None)
           ["fetch"; "parse"] "svg").
  - reflexivity.
  - reflexivity.
  - reflexivity.
  - reflexivity.
  - reflexivity.
  - left; reflexivity.
  - simpl; intuition discriminate.
Defined.

(** C5, as the specification states it, fails: an edge to a node that is
    not declared is not rejected; the call returns a graph holding that
    edge. *)
Lemma dangling_edge_returns_a_graph :
  ended (convert_json_to_graphviz true Sample.formats
           (Sample.wrapped Sample.dangling_edge) "pdf") =
    Returned
      (mkDigraph "ScrapeGraphAI Generated Graph" "pdf"
         [("color", "lightblue2"); ("style", "filled")]
         [Node (JStr "fetch") doublecircle;
          Edge (JStr "fetch") (JStr "ghost")]).
Proof. reflexivity. Qed.

(** C5, amended.  In a description whose names and edge ends are strings,
    drawn in a format graphviz knows, an edge whose "from" or one of
    whose targets names no declared node is drawn like any other: the
    call returns the graph, and for each target of that edge the graph
    holds the [edge] call from its "from" to that target. *)
Theorem dangling_edge_is_drawn
    (known : string -> bool) (json_data : json)
    (cfg : list (string * json)) (s : shape)
    (f : string) (t : target) (fmt : string) :
  known fmt = true ->
  graph_config json_data = inr (JDict cfg) ->
  shape_of cfg = Some s ->
  typed s = true ->
  In (JStr f, target_json t) (ends s) ->
  (~ In (JStr f) (names s) \/
   exists x, In x (target_names t) /\ ~ In (JStr x) (names s)) ->
  exists g,
    ended (convert_json_to_graphviz true known json_data fmt) =
      Returned g /\
    forall x, In x (target_names t) ->
      In (JStr f, JStr x) (edge_calls (body g)).
Proof.
  intros Hk Hc Hs Ht Hin _.
  exists (extend (fresh_graph fmt) (drawing s)).
  rewrite (convert_shaped _ _ _ _ fmt Hk Hc Hs Ht).
  rewrite body_fresh, edge_calls_drawing.
  split; [reflexivity|].
  intros x Hx. apply in_flat_map. exists (JStr f, target_json t).
  split; [exact Hin|]. simpl. apply in_map.
  destruct t as [y|l]; simpl in *.
  - destruct Hx as [->|[]]. now left.
  - now apply in_map.
Qed.

Lemma dangling_edge_is_drawn_witness :
  exists g,
    ended (convert_json_to_graphviz true Sample.formats
             (Sample.wrapped Sample.dangling_edge) "pdf") = Returned g /\
    forall x, In x ["ghost"] ->
      In (JStr "fetch", JStr x) (edge_calls (body g)).
Proof.
  apply (dangling_edge_is_drawn Sample.formats
           (Sample.wrapped Sample.dangling_edge) Sample.dangling_edge
           (mkShape [JStr "fetch"] [(JStr "fetch", JStr "ghost")]
              (Some (JStr "fetch")))
           "fetch" (Single "ghost") "pdf").
  - reflexivity.
  - reflexivity.
  - reflexivity.
  - reflexivity.
  - simpl; auto.
  - right. exists "ghost". simpl. intuition discriminate.
Defined.

Lemma targets_run_malformed (f : string) (ts : list json) :
  forallb is_str ts = false ->
  targets_run (Some (JStr f)) ts =
    (map (Edge (JStr f)) (leading_strs ts), Some AttributeError).
Proof.
  induction ts as [|t ts IH]; simpl; [discriminate|].
  destruct (is_str t); simpl; [|reflexivity].
  intros H. now rewrite (IH H).
Qed.

Lemma edge_run_malformed (e : json) (f : string) (t : json) :
  edge_ends e = Some (JStr f, t) ->
  well_formed_to t = false ->
  edge_run e =
    (map (Edge (JStr f)) (leading_strs (targets t)), Some AttributeError).
Proof.
  destruct e as [| | | | |d]; simpl; try discriminate.
  destruct (lookup "from" d) as [f'|] eqn:Hf; try discriminate.
  destruct (lookup "to" d) as [t'|] eqn:Ht; try discriminate.
  intros [= -> ->] Hw.
  destruct t as [| | |s|ts|]; try discriminate; try reflexivity.
  simpl in Hw. now apply targets_run_malformed.
Qed.

(** C6, as the specification states it, fails: no [MalformedEdge] error
    exists, and an edge whose "to" is not as the contract says is not set
    aside before it is processed.  With "to" a number the call ends with
    the [AttributeError] of [graph.edge]; with a list holding a number
    the targets before the number are drawn first. *)
Lemma malformed_edge_is_processed :
  well_formed_to (JNum 7) = false /\
  ended (convert_json_to_graphviz true Sample.formats
           (Sample.wrapped Sample.malformed_edge) "pdf") =
    Raised AttributeError
      [Node (JStr "fetch") doublecircle; Node (JStr "parse") []] /\
  well_formed_to (JList [JStr "parse"; JNum 7; JStr "store"]) = false /\
  ended (convert_json_to_graphviz true Sample.formats
           (Sample.wrapped Sample.mixed_targets) "pdf") =
    Raised AttributeError
      [Node (JStr "fetch") doublecircle; Node (JStr "parse") [];
       Node (JStr "store") []; Edge (JStr "fetch") (JStr "parse")].
Proof. repeat split; reflexivity. Qed.

(** C6, amended.  In a description whose node names are strings, drawn in
    a format graphviz knows, the first edge whose "to" is neither a
    string nor a list of strings (its "from" being a string) is handed to
    the drawing layer like any other: after the nodes and the edges
    before it, a "to" that is a list gives the [edge] calls for its items
    up to the first one that is not a string, and the call ends with the
    [AttributeError] that [graph.edge] raises on an end that is not a
    string; no graph is returned and the edges after it are not drawn. *)
Theorem malformed_to_raises_in_graph_edge
    (known : string -> bool) (json_data : json)
    (cfg : list (string * json)) (items : list json) (ns : list string)
    (good : list json) (bad : json) (rest : list json)
    (before : list (json * json)) (f : string) (t : json) (fmt : string) :
  known fmt = true ->
  graph_config json_data = inr (JDict cfg) ->
  items_of (lookup "nodes" cfg) = Some items ->
  traverse node_name items = Some (map JStr ns) ->
  lookup "edges" cfg = Some (JList (good ++ bad :: rest)) ->
  traverse edge_ends good = Some before ->
  typed_ends before = true ->
  edge_ends bad = Some (JStr f, t) ->
  well_formed_to t = false ->
  ended (convert_json_to_graphviz true known json_data fmt) =
    Raised AttributeError
      (map (node_stmt (value_or (lookup "entry_point" cfg) JNull))
         (map JStr ns) ++
       flat_map edge_stmts before ++
       map (Edge (JStr f)) (leading_strs (targets t))).
Proof.
  intros Hk Hc Hi Hn He Hg Ht Hb Hw.
  rewrite (ended_draw_graph _ _ _ _ Hk Hc).
  apply outcome_stops. rewrite flat_map_concat_map.
  apply (draw_graph_edge_stops _ _ _ items ns good bad rest).
  - now apply iter_items_of.
  - now apply names_view.
  - now rewrite He.
  - now apply ends_view.
  - now apply edge_run_malformed.
Qed.

Lemma malformed_to_raises_in_graph_edge_witness :
  ended (convert_json_to_graphviz true Sample.formats
           (Sample.wrapped Sample.mixed_targets) "pdf") =
    Raised AttributeError
      [Node (JStr "fetch") doublecircle; Node (JStr "parse") [];
       Node (JStr "store") []; Edge (JStr "fetch") (JStr "parse")].
Proof.
  apply (malformed_to_raises_in_graph_edge Sample.formats
           (Sample.wrapped Sample.mixed_targets) Sample.mixed_targets
           [Sample.node_of "fetch"; Sample.node_of "parse";
            Sample.node_of "store"]
           ["fetch"; "parse"; "store"]
           []
           (Sample.edge_of "fetch"
              (JList [JStr "parse"; JNum 7; JStr "store"]))
           [Sample.edge_of "parse" (JStr "store")]
           [] "fetch" (JList [JStr "parse"; JNum 7; JStr "store"]) "pdf");
    reflexivity.
Defined.

(** C7, as the specification states it, fails: an entry point that names
    no node is not rejected; the call returns a graph. *)
Lemma ghost_entry_point_returns_a_graph :
  ended (convert_json_to_graphviz true Sample.formats
           (Sample.wrapped Sample.ghost_entry_point) "pdf") =
    Returned
      (mkDigraph "ScrapeGraphAI Generated Graph" "pdf"
         [("color", "lightblue2"); ("style", "filled")]
         [Node (JStr "fetch") []; Node (JStr "parse") [];
          Edge (JStr "fetch") (JStr "parse")]).
Proof. reflexivity. Qed.

(** C7, amended.  In a description whose names and edge ends are strings,
    drawn in a format graphviz knows, an entry point that names none of
    the nodes does not make the call fail: it returns the graph, and no
    [node] call is highlighted; each node is drawn once, in order,
    without attribute. *)
Theorem unknown_entry_point_highlights_nothing
    (known : string -> bool) (json_data : json)
    (cfg : list (string * json)) (s : shape)
    (ns : list string) (ep fmt : string) :
  known fmt = true ->
  graph_config json_data = inr (JDict cfg) ->
  shape_of cfg = Some s ->
  names s = map JStr ns ->
  typed_ends (ends s) = true ->
  entry s = Some (JStr ep) ->
  ~ In ep ns ->
  exists g,
    ended (convert_json_to_graphviz true known json_data fmt) =
      Returned g /\
    node_calls (body g) = map (fun n => (JStr n, [])) ns /\
    filter highlighted (node_calls (body g)) = [].
Proof.
  intros Hk Hc Hs Hn Ht He Hne.
  exists (extend (fresh_graph fmt) (drawing s)).
  rewrite (convert_shaped _ _ _ _ fmt Hk Hc Hs (typed_intro _ _ Hn Ht)).
  rewrite body_fresh.
  unfold drawing. rewrite Hn, nodes_all_plain.
  - rewrite node_calls_app, node_calls_edges, app_nil_r.
    split; [reflexivity|]. clear.
    induction ns as [|n ns [IH1 IH2]]; simpl; [split; reflexivity|].
    rewrite <- IH1. split; [reflexivity|exact IH2].
  - intros n Hin. unfold entry_value. rewrite He. simpl.
    destruct (String.eqb_spec n ep); [subst; contradiction|reflexivity].
Qed.

Lemma unknown_entry_point_highlights_nothing_witness :
  exists g,
    ended (convert_json_to_graphviz true Sample.formats
             (Sample.wrapped Sample.ghost_entry_point) "pdf") =
      Returned g /\
    node_calls (body g) = [(JStr "fetch", []); (JStr "parse", [])] /\
    filter highlighted (node_calls (body g)) = [].
Proof.
  apply (unknown_entry_point_highlights_nothing Sample.formats
           (Sample.wrapped Sample.ghost_entry_point)
           Sample.ghost_entry_point
           (mkShape [JStr "fetch"; JStr "parse"]
              [(JStr "fetch", JStr "parse")] (Some (JStr "ghost")))
           ["fetch"; "parse"] "ghost" "pdf").
  - reflexivity.
  - reflexivity.
  - reflexivity.
  - reflexivity.
  - reflexivity.
  - reflexivity.
  - simpl; intuition discriminate.
Defined.

Lemma traverse_map {A B C : Type} (enc : A -> B) (view : B -> option C)
    (out : A -> C) (l : list A) :
  (forall x, view (enc x) = Some (out x)) ->
  traverse view (map enc l) = Some (map out l).
Proof.
  intros H; induction l as [|x l IH]; simpl; [reflexivity|].
  now rewrite H, IH.
Qed.

Lemma shape_of_contract (nodes : list Contract.NodeSpec)
    (edges : list (string * target)) (entry_point : option json) :
  shape_of (Contract.config nodes edges entry_point) =
    Some (mkShape (map JStr (map Contract.name nodes))
            (map (fun e => (JStr (fst e), target_json (snd e))) edges)
            entry_point).
Proof.
  unfold shape_of, Contract.config. simpl.
  rewrite (traverse_map Contract.node_json node_name
             (fun n => JStr (Contract.name n))) by reflexivity.
  rewrite (traverse_map Contract.edge_json edge_ends
             (fun e => (JStr (fst e), target_json (snd e)))) by reflexivity.
  rewrite map_map. destruct entry_point; reflexivity.
Qed.

(** C8.  The method checks nothing of a description laid out as the
    input contract (names and edge ends are strings, "to" a string or a
    list of strings): whether or not the node names are distinct, whether
    or not the edges name declared nodes and whether or not there is an
    entry point, with a format graphviz knows the call raises nothing and
    returns the graph with one [node] call per node and one [edge] call
    per target. *)
Theorem rendering_performs_no_validation
    (known : string -> bool) (nodes : list Contract.NodeSpec)
    (edges : list (string * target)) (entry_point : option json)
    (fmt : string) :
  known fmt = true ->
  ended (convert_json_to_graphviz true known
           (Contract.raw nodes edges entry_point) fmt) =
    Returned
      (extend (fresh_graph fmt)
         (map (fun n =>
                 node_stmt (value_or entry_point JNull)
                   (JStr (Contract.name n))) nodes ++
          Contract.edge_lines edges)).
Proof.
  intros Hk.
  rewrite (convert_shaped known (Contract.raw nodes edges entry_point)
             (Contract.config nodes edges entry_point) _ fmt Hk eq_refl
             (shape_of_contract nodes edges entry_point)).
  - unfold drawing, entry_value, value_or, Contract.edge_lines. simpl.
    rewrite !map_map. do 3 f_equal.
    induction edges as [|[f t] edges IH]; simpl; [reflexivity|].
    rewrite IH. f_equal. unfold edge_stmts. simpl.
    destruct t; simpl; [reflexivity|]. now rewrite map_map.
  - unfold typed. simpl.
    now rewrite typed_names_map, typed_ends_targets.
Qed.

Lemma rendering_performs_no_validation_witness :
  ended (convert_json_to_graphviz true Sample.formats
           (Contract.raw
              [Contract.mkNodeSpec "fetch" "gets a page" "node" ["url"];
               Contract.mkNodeSpec "fetch" "gets it again" "node" []]
              [("fetch", Sequence ["ghost"; "fetch"]);
               ("nowhere", Single "fetch")]
              None) "png") =
    Returned
      (extend (fresh_graph "png")
         [Node (JStr "fetch") []; Node (JStr "fetch") [];
          Edge (JStr "fetch") (JStr "ghost");
          Edge (JStr "fetch") (JStr "fetch");
          Edge (JStr "nowhere") (JStr "fetch")]).
Proof.
  apply (rendering_performs_no_validation Sample.formats
           [Contract.mkNodeSpec "fetch" "gets a page" "node" ["url"];
            Contract.mkNodeSpec "fetch" "gets it again" "node" []]
           [("fetch", Sequence ["ghost"; "fetch"]);
            ("nowhere", Single "fetch")]
           None "png").
  reflexivity.
Defined.

(** C9.  A call leaves the object it was given as it found it, and a
    second call on that object ends exactly as the first did: each call
    starts from a graph of its own. *)
Theorem convert_leaves_input_and_repeats
    (installed : bool) (known : string -> bool) (json_data : json)
    (fmt : string) :
  arg_after (convert_json_to_graphviz installed known json_data fmt) =
    json_data /\
  convert_json_to_graphviz installed known
    (arg_after (convert_json_to_graphviz installed known json_data fmt))
    fmt =
    convert_json_to_graphviz installed known json_data fmt.
Proof.
  split.
  - apply arg_after_convert.
  - now rewrite arg_after_convert.
Qed.

(** C10, as the specification states it, fails: an input that lacks
    "nodes" and "entry_point" raises [KeyError] when its edge has no
    "from", and an input that lacks "entry_point" takes the highlighted
    branch for a node whose name is [None], where [graph.node] raises
    [TypeError]; in neither case is a graph returned. *)
Lemma absent_keys_do_not_prevent_raising :
  lookup "nodes" Sample.only_edges_no_from = None /\
  lookup "entry_point" Sample.only_edges_no_from = None /\
  ended (convert_json_to_graphviz true Sample.formats
           (Sample.wrapped Sample.only_edges_no_from) "pdf") =
    Raised KeyError [] /\
  lookup "entry_point" Sample.null_name = None /\
  ended (convert_json_to_graphviz true Sample.formats
           (Sample.wrapped Sample.null_name) "pdf") =
    Raised TypeError [].
Proof. repeat split; reflexivity. Qed.

(** C10, amended.  A key missing from the configuration raises nothing
    of its own and stands for its default: the call ends exactly as it
    does on the same configuration with the default written under that
    key ([[]] for "nodes" and for "edges", [None] for "entry_point").
    With a format graphviz knows, a configuration without "nodes" and
    "edges" returns the empty graph; and when the keys that are there
    hold what the contract says (mappings whose names and edge ends are
    strings), the call returns a graph with no [node] call if "nodes" is
    missing, no [edge] call if "edges" is missing, and no highlighted
    [node] call if "entry_point" is missing. *)
Theorem absent_keys_take_defaults
    (known : string -> bool) (json_data : json)
    (cfg : list (string * json)) (fmt : string) :
  graph_config json_data = inr (JDict cfg) ->
  (forall k dv json_data',
     In (k, dv) defaults ->
     lookup k cfg = None ->
     graph_config json_data' = inr (JDict (cfg ++ [(k, dv)])) ->
     ended (convert_json_to_graphviz true known json_data fmt) =
       ended (convert_json_to_graphviz true known json_data' fmt)) /\
  (known fmt = true ->
   lookup "nodes" cfg = None -> lookup "edges" cfg = None ->
   ended (convert_json_to_graphviz true known json_data fmt) =
     Returned (fresh_graph fmt)) /\
  (forall s,
   known fmt = true -> shape_of cfg = Some s -> typed s = true ->
   exists g,
     ended (convert_json_to_graphviz true known json_data fmt) =
       Returned g /\
     (lookup "nodes" cfg = None -> node_calls (body g) = []) /\
     (lookup "edges" cfg = None -> edge_calls (body g) = []) /\
     (lookup "entry_point" cfg = None ->
      filter highlighted (node_calls (body g)) = [])).
Proof.
  intros Hc. split; [|split].
  - intros k dv j' Hk Hnone Hc'.
    apply (ended_config _ _ _ _ _ fmt Hc Hc').
    now apply get_default_added.
  - intros Hk Hn He.
    assert (Hs : shape_of cfg =
                 Some (mkShape [] [] (lookup "entry_point" cfg)))
      by (unfold shape_of; now rewrite Hn, He).
    rewrite (convert_shaped _ _ _ _ fmt Hk Hc Hs eq_refl). simpl.
    now rewrite extend_nil.
  - intros s Hk Hs Ht.
    exists (extend (fresh_graph fmt) (drawing s)).
    rewrite (convert_shaped _ _ _ _ fmt Hk Hc Hs Ht), body_fresh.
    rewrite node_calls_drawing, edge_calls_drawing.
    unfold typed in Ht. apply andb_prop in Ht as [Htn _].
    unfold shape_of in Hs.
    destruct (items_of (lookup "nodes" cfg)) as [nodes|] eqn:Hn;
      try discriminate.
    destruct (items_of (lookup "edges" cfg)) as [edges|] eqn:He;
      try discriminate.
    destruct (traverse node_name nodes) as [ns|] eqn:Hns; try discriminate.
    destruct (traverse edge_ends edges) as [es|] eqn:Hes; try discriminate.
    injection Hs as <-. unfold entry_value. simpl in *.
    split; [reflexivity|]. repeat split.
    + intros H. rewrite H in Hn. injection Hn as <-.
      injection Hns as <-. reflexivity.
    + intros H. rewrite H in He. injection He as <-.
      injection Hes as <-. reflexivity.
    + intros ->. clear - Htn. unfold typed_names in Htn.
      induction ns as [|n ns IH]; simpl in *; [reflexivity|].
      apply andb_prop in Htn as [Hn Hns].
      destruct n; try discriminate. simpl. now apply IH.
Qed.

Lemma absent_keys_take_defaults_witness :
  ended (convert_json_to_graphviz true Sample.formats
           (Sample.wrapped Sample.only_edges) "pdf") =
    ended (convert_json_to_graphviz true Sample.formats
             (Sample.wrapped (Sample.only_edges ++ [("nodes", JList [])]))
             "pdf") /\
  ended (convert_json_to_graphviz true Sample.formats
           (Sample.wrapped []) "pdf") =
    Returned (fresh_graph "pdf") /\
  exists g,
    ended (convert_json_to_graphviz true Sample.formats
             (Sample.wrapped Sample.only_edges) "pdf") = Returned g /\
    node_calls (body g) = [] /\
    edge_calls (body g) = [(JStr "fetch", JStr "parse")] /\
    filter highlighted (node_calls (body g)) = [].
Proof.
  split; [|split].
  - apply (proj1 (absent_keys_take_defaults Sample.formats
                    (Sample.wrapped Sample.only_edges)
                    Sample.only_edges "pdf" eq_refl)
             "nodes" (JList [])).
    + simpl; auto.
    + reflexivity.
    + reflexivity.
  - apply (proj1 (proj2 (absent_keys_take_defaults Sample.formats
                           (Sample.wrapped []) [] "pdf" eq_refl)));
      reflexivity.
  - destruct (proj2 (proj2 (absent_keys_take_defaults Sample.formats
                              (Sample.wrapped Sample.only_edges)
                              Sample.only_edges "pdf" eq_refl))
                (mkShape [] [(JStr "fetch", JStr "parse")] None)
                eq_refl eq_refl eq_refl)
      as [g [Hg [Hn [_ Hh]]]].
    exists g. split; [exact Hg|].
    split; [apply Hn; reflexivity|].
    split; [|apply Hh; reflexivity].
    injection Hg as <-. reflexivity.
Defined.

(** ** Runs on arbitrary inputs *)

Lemma forallb_false_split {A : Type} (p : A -> bool) (l : list A) :
  forallb p l = false ->
  exists good bad rest,
    l = good ++ bad :: rest /\ forallb p good = true /\ p bad = false.
Proof.
  induction l as [|x l IH]; simpl; [discriminate|].
  destruct (p x) eqn:Hx; simpl.
  - intros H. destruct (IH H) as (good & bad & rest & -> & Hg & Hb).
    exists (x :: good), bad, rest. simpl. now rewrite Hx, Hg.
  - intros _. exists [], x, l. now repeat split.
Qed.

Lemma forallb_traverse {A B : Type} (view : A -> option B) (l : list A) :
  forallb (fun x => match view x with Some _ => true | None => false end) l
    = true ->
  exists ys, traverse view l = Some ys.
Proof.
  induction l as [|x l IH]; simpl; [now exists []|].
  destruct (view x) as [y|]; simpl; [|discriminate].
  intros H. destruct (IH H) as [ys ->]. now exists (y :: ys).
Qed.

Lemma edge_view_none (e : json) :
  edge_view e = None -> exists l x, edge_run e = (l, Some x).
Proof.
  unfold edge_view. destruct (edge_run e) as [l [x|]]; [|discriminate].
  intros _. now exists l, x.
Qed.

(** X1.  The method returns exactly when graphviz knows the format and
    the input is one [accepts] describes: "text" leads to a mapping, what
    stands for "nodes" can be iterated and gives mappings whose
    "node_name" is a string, what stands for "edges" can be iterated and
    gives mappings with a "to" and, unless "to" is the empty list, a
    "from", both ends of every edge drawn being strings.  On every other
    input it raises. *)
Theorem returns_iff_accepts
    (known : string -> bool) (json_data : json) (fmt : string) :
  (exists g,
     ended (convert_json_to_graphviz true known json_data fmt) =
       Returned g) <->
  known fmt = true /\ accepts json_data = true.
Proof.
  destruct (known fmt) eqn:Hk.
  2:{ split; [|intros [? _]; discriminate]. intros [g Hg].
      unfold convert_json_to_graphviz, Graphviz.new in Hg.
      rewrite Hk in Hg. discriminate. }
  unfold accepts.
  destruct (graph_config json_data) as [e|gc] eqn:Hc.
  - split; [|intros [_ ?]; discriminate]. intros [g Hg].
    unfold graph_config in Hc.
    unfold convert_json_to_graphviz in Hg. rewrite (new_known _ _ Hk) in Hg.
    unfold convert_body in Hg.
    unfold bind at 1, read_arg in Hg. cbv beta iota in Hg.
    simpl arg_object in Hg. unfold bind at 1, lift at 1 in Hg.
    destruct (getitem json_data (KStr "text")) as [e'|text];
      [discriminate|].
    unfold bind at 1, lift at 1 in Hg. rewrite Hc in Hg. discriminate.
  - destruct gc as [| | | | |cfg];
      try (split; [|intros [_ ?]; discriminate]; intros [g Hg];
           unfold convert_json_to_graphviz in Hg;
           rewrite (new_known _ _ Hk) in Hg;
           rewrite (convert_body_config _ _ _ Hc) in Hg;
           discriminate).
    rewrite (ended_draw_graph _ _ _ fmt Hk Hc).
    set (nodes := value_or (lookup "nodes" cfg) (JList [])).
    set (edges := value_or (lookup "edges" cfg) (JList [])).
    set (ep := value_or (lookup "entry_point" cfg) JNull).
    destruct (iter nodes) as [e|items] eqn:Hi.
    { split; [|intros [_ ?]; discriminate]. intros [g Hg].
      now rewrite (outcome_stops _ _ _ _ _
                     (draw_graph_nodes_not_iterable _ edges ep _ Hi))
        in Hg. }
    destruct (forallb node_ok items) eqn:Hn.
    2:{ split; [|intros [_ ?]; destruct (iter edges); discriminate].
        intros [g Hg].
        destruct (forallb_false_split _ _ Hn)
          as (good & bad & rest & -> & Hgood & Hbad).
        destruct (forallb_traverse node_view _ Hgood) as [xs Hxs].
        unfold node_ok in Hbad.
        destruct (node_view bad) eqn:Hb; [discriminate|].
        now rewrite (outcome_stops _ _ _ _ _
                       (draw_graph_node_stops _ edges ep _ _ _ _
                          Hi Hxs Hb)) in Hg. }
    destruct (forallb_traverse node_view _ Hn) as [xs Hxs].
    destruct (iter edges) as [e|es] eqn:He.
    { split; [|intros [_ ?]; discriminate]. intros [g Hg].
      now rewrite (outcome_stops _ _ _ _ _
                     (draw_graph_edges_not_iterable _ _ ep _ _ _
                        Hi Hxs He)) in Hg. }
    simpl. destruct (forallb edge_ok es) eqn:Hes.
    + split; [now split|]. intros _.
      destruct (forallb_traverse edge_view _ Hes) as [ls Hls].
      rewrite (outcome_appends _ _ _ _
                 (draw_graph_returns _ _ ep _ _ _ _ Hi Hxs He Hls)).
      eauto.
    + split; [|intros [_ ?]; discriminate]. intros [g Hg].
      destruct (forallb_false_split _ _ Hes)
        as (good & bad & rest & -> & Hgood & Hbad).
      destruct (forallb_traverse edge_view _ Hgood) as [ls Hls].
      unfold edge_ok in Hbad.
      destruct (edge_view bad) eqn:Hb; [discriminate|].
      destruct (edge_view_none _ Hb) as (l & x & Hrun).
      now rewrite (outcome_stops _ _ _ _ _
                     (draw_graph_edge_stops _ _ ep _ _ _ _ _ _ _ _
                        Hi Hxs He Hls Hrun)) in Hg.
Qed.

Lemma returns_iff_accepts_witness :
  (exists g,
     ended (convert_json_to_graphviz true Sample.formats
              (Sample.wrapped Sample.fan_out) "pdf") = Returned g) /\
  accepts (Sample.wrapped Faulty.number_name) = false /\
  Sample.formats "docx" = false.
Proof.
  split; [|split; reflexivity].
  apply (proj2 (returns_iff_accepts Sample.formats
                  (Sample.wrapped Sample.fan_out) "pdf")).
  split; reflexivity.
Defined.

(** X2.  With a format graphviz knows, the loop over the nodes stops at
    the first item that cannot be drawn: that has no "node_name"
    ([KeyError] for a mapping, [TypeError] for anything else) or whose
    name is not a string ([TypeError], raised by [graph.node]).  The
    [node] calls for the items before it have been made, no [edge] call
    has. *)
Theorem first_bad_node_stops_the_run
    (known : string -> bool) (json_data : json)
    (cfg : list (string * json))
    (good : list json) (bad : json) (rest : list json) (ns : list string)
    (fmt : string) :
  known fmt = true ->
  graph_config json_data = inr (JDict cfg) ->
  lookup "nodes" cfg = Some (JList (good ++ bad :: rest)) ->
  traverse node_name good = Some (map JStr ns) ->
  node_view bad = None ->
  ended (convert_json_to_graphviz true known json_data fmt) =
    Raised (node_exn bad)
      (map (node_stmt (value_or (lookup "entry_point" cfg) JNull))
         (map JStr ns)).
Proof.
  intros Hk Hc Hn Hg Hb. rewrite (ended_draw_graph _ _ _ fmt Hk Hc).
  apply outcome_stops.
  apply (draw_graph_node_stops _ _ _ good bad rest ns); auto.
  - now rewrite Hn.
  - now apply names_view.
Qed.

Lemma first_bad_node_stops_the_run_witness :
  ended (convert_json_to_graphviz true Sample.formats
           (Sample.wrapped Faulty.bad_node) "pdf") =
    Raised KeyError [Node (JStr "fetch") doublecircle] /\
  ended (convert_json_to_graphviz true Sample.formats
           (Sample.wrapped Faulty.number_name) "pdf") =
    Raised TypeError [Node (JStr "fetch") doublecircle].
Proof.
  split.
  - apply (first_bad_node_stops_the_run Sample.formats
             (Sample.wrapped Faulty.bad_node) Faulty.bad_node
             [Sample.node_of "fetch"] (JDict [("name", JStr "parse")])
             [Sample.node_of "store"] ["fetch"] "pdf");
      reflexivity.
  - apply (first_bad_node_stops_the_run Sample.formats
             (Sample.wrapped Faulty.number_name) Faulty.number_name
             [Sample.node_of "fetch"] (JDict [("node_name", JNum 7)])
             [Sample.node_of "store"] ["fetch"] "pdf");
      reflexivity.
Defined.

(** X3.  With a format graphviz knows and node names that are strings,
    the loop over the edges stops at the first edge that cannot be drawn
    in full (not a mapping: [TypeError]; no "to", or targets but no
    "from": [KeyError]; an end that is not a string: [AttributeError]).
    By then every node has been drawn, and so have the edges before the
    failing one and the targets of the failing one that come before the
    failure; nothing after that is drawn. *)
Theorem first_bad_edge_stops_the_run
    (known : string -> bool) (json_data : json)
    (cfg : list (string * json))
    (items : list json) (ns : list string) (good : list json) (bad : json)
    (rest : list json) (es : list (json * json)) (l : list stmt) (e : exn)
    (fmt : string) :
  known fmt = true ->
  graph_config json_data = inr (JDict cfg) ->
  items_of (lookup "nodes" cfg) = Some items ->
  traverse node_name items = Some (map JStr ns) ->
  lookup "edges" cfg = Some (JList (good ++ bad :: rest)) ->
  traverse edge_ends good = Some es ->
  typed_ends es = true ->
  edge_run bad = (l, Some e) ->
  ended (convert_json_to_graphviz true known json_data fmt) =
    Raised e
      (map (node_stmt (value_or (lookup "entry_point" cfg) JNull))
         (map JStr ns) ++
       flat_map edge_stmts es ++ l).
Proof.
  intros Hk Hc Hi Hn He Hg Ht Hb.
  rewrite (ended_draw_graph _ _ _ fmt Hk Hc).
  apply outcome_stops. rewrite flat_map_concat_map.
  apply (draw_graph_edge_stops _ _ _ items ns good bad rest).
  - now apply iter_items_of.
  - now apply names_view.
  - now rewrite He.
  - now apply ends_view.
  - exact Hb.
Qed.

Lemma first_bad_edge_stops_the_run_witness :
  ended (convert_json_to_graphviz true Sample.formats
           (Sample.wrapped Faulty.bad_edge) "pdf") =
    Raised KeyError
      [Node (JStr "fetch") doublecircle; Node (JStr "parse") [];
       Edge (JStr "fetch") (JStr "parse")].
Proof.
  apply (first_bad_edge_stops_the_run Sample.formats
           (Sample.wrapped Faulty.bad_edge) Faulty.bad_edge
           [Sample.node_of "fetch"; Sample.node_of "parse"]
           ["fetch"; "parse"]
           [Sample.edge_of "fetch" (JStr "parse")]
           (JDict [("to", JStr "fetch")])
           [Sample.edge_of "parse" (JStr "fetch")]
           [(JStr "fetch", JStr "parse")] [] KeyError "pdf");
    reflexivity.
Defined.

(** X4.  The defaults stand in for a missing key only.  With a format
    graphviz knows, a "nodes" key holding [None], a [bool] or an [int]
    raises [TypeError] before any call; an "edges" key holding one raises
    [TypeError] once all the nodes, named by strings, are drawn. *)
Theorem scalar_nodes_or_edges_raise_type_error
    (known : string -> bool) (json_data : json)
    (cfg : list (string * json)) (v : json) (fmt : string) :
  known fmt = true ->
  graph_config json_data = inr (JDict cfg) ->
  scalar v = true ->
  (lookup "nodes" cfg = Some v ->
   ended (convert_json_to_graphviz true known json_data fmt) =
     Raised TypeError []) /\
  (forall items ns,
     lookup "edges" cfg = Some v ->
     items_of (lookup "nodes" cfg) = Some items ->
     traverse node_name items = Some (map JStr ns) ->
     ended (convert_json_to_graphviz true known json_data fmt) =
       Raised TypeError
         (map (node_stmt (value_or (lookup "entry_point" cfg) JNull))
            (map JStr ns))).
Proof.
  intros Hk Hc Hv.
  assert (Hi : iter v = inl TypeError)
    by (destruct v; simpl in *; try discriminate; reflexivity).
  split.
  - intros Hn. rewrite (ended_draw_graph _ _ _ fmt Hk Hc), Hn.
    apply outcome_stops. now apply draw_graph_nodes_not_iterable.
  - intros items ns He Hn Hns.
    rewrite (ended_draw_graph _ _ _ fmt Hk Hc).
    apply outcome_stops.
    apply (draw_graph_edges_not_iterable _ _ _ items ns TypeError).
    + now apply iter_items_of.
    + now apply names_view.
    + now rewrite He.
Qed.

Lemma scalar_nodes_or_edges_raise_type_error_witness :
  ended (convert_json_to_graphviz true Sample.formats
           (Sample.wrapped Faulty.null_nodes) "pdf") =
    Raised TypeError [] /\
  ended (convert_json_to_graphviz true Sample.formats
           (Sample.wrapped Faulty.null_edges) "pdf") =
    Raised TypeError [Node (JStr "fetch") []].
Proof.
  split.
  - apply (proj1 (scalar_nodes_or_edges_raise_type_error Sample.formats
                    (Sample.wrapped Faulty.null_nodes)
                    Faulty.null_nodes JNull "pdf"
                    eq_refl eq_refl eq_refl)).
    reflexivity.
  - apply (proj2 (scalar_nodes_or_edges_raise_type_error Sample.formats
                    (Sample.wrapped Faulty.null_edges)
                    Faulty.null_edges JNull "pdf"
                    eq_refl eq_refl eq_refl)
             [Sample.node_of "fetch"] ["fetch"]);
      reflexivity.
Defined.

(** X5.  With a format graphviz knows, when [json_data["text"][0]] is
    not a mapping the first [get] raises [AttributeError]: nothing is
    drawn and the argument is left as it was. *)
Theorem config_not_a_mapping_raises_attribute_error
    (known : string -> bool) (json_data gc : json) (fmt : string) :
  known fmt = true ->
  graph_config json_data = inr gc ->
  is_dict gc = false ->
  convert_json_to_graphviz true known json_data fmt =
    mkResult (Raised AttributeError []) json_data.
Proof.
  intros Hk Hc Hd. unfold convert_json_to_graphviz.
  rewrite (new_known _ _ Hk), (convert_body_config _ _ _ Hc).
  destruct gc; try discriminate; reflexivity.
Qed.

Lemma config_not_a_mapping_raises_attribute_error_witness :
  convert_json_to_graphviz true Sample.formats Faulty.list_config "pdf" =
    mkResult (Raised AttributeError []) Faulty.list_config.
Proof.
  apply (config_not_a_mapping_raises_attribute_error Sample.formats
           Faulty.list_config (JList [Sample.node_of "fetch"]) "pdf");
    reflexivity.
Defined.

(** ** What every run keeps *)

Lemma emits_weaken {A : Type} (L L' : list stmt -> Prop) (m : M A) :
  (forall l, L l -> L' l) -> emits L m -> emits L' m.
Proof.
  intros HL Hm h. destruct (Hm h) as (l & Hl & Hg). exists l. auto.
Qed.

Lemma emits_ret {A : Type} (L : list stmt -> Prop) (a : A) :
  L [] -> emits L (ret a).
Proof. intros H h. exists []. simpl. now rewrite extend_nil. Qed.

Lemma emits_lift {A : Type} (L : list stmt -> Prop) (r : res A) :
  L [] -> emits L (lift r).
Proof. intros H h. exists []. simpl. now rewrite extend_nil. Qed.

Lemma emits_read_arg (L : list stmt -> Prop) : L [] -> emits L read_arg.
Proof. intros H h. exists []. simpl. now rewrite extend_nil. Qed.

Lemma emits_graph_node (L : list stmt -> Prop) (n : json)
    (a : list (string * string)) :
  L [] -> L [Node n a] -> emits L (graph_node n a).
Proof.
  intros H0 H h. unfold graph_node, on_graph, node.
  destruct (is_str n).
  - exists [Node n a]. auto.
  - exists []. simpl. now rewrite extend_nil.
Qed.

Lemma emits_graph_edge (L : list stmt -> Prop) (f t : json) :
  L [] -> L [Edge f t] -> emits L (graph_edge f t).
Proof.
  intros H0 H h. unfold graph_edge, on_graph, edge.
  destruct (is_str f && is_str t).
  - exists [Edge f t]. auto.
  - exists []. simpl. now rewrite extend_nil.
Qed.

(** What a sequence appends is what its first part appends followed by
    what its second part appends, if it gets that far. *)
Lemma emits_bind {A B : Type} (L1 L2 : list stmt -> Prop) (m : M A)
    (k : A -> M B) :
  emits L1 m -> (forall a, emits L2 (k a)) -> L2 [] ->
  emits (fun l => exists l1 l2, l = l1 ++ l2 /\ L1 l1 /\ L2 l2) (bind m k).
Proof.
  intros Hm Hk H0 h. unfold bind.
  destruct (Hm h) as (l1 & Hl1 & Hg1).
  destruct (m h) as [h' [e|a]]; simpl in *.
  - exists l1. split; [|exact Hg1].
    exists l1, []. now rewrite app_nil_r.
  - destruct (Hk a h') as (l2 & Hl2 & Hg2).
    exists (l1 ++ l2). split; [now exists l1, l2|].
    now rewrite Hg2, Hg1, extend_extend.
Qed.

Lemma emits_bind_closed {A B : Type} (L : list stmt -> Prop) (m : M A)
    (k : A -> M B) :
  closed L -> emits L m -> (forall a, emits L (k a)) -> emits L (bind m k).
Proof.
  intros [H0 Happ] Hm Hk.
  apply (emits_weaken _ _ _ (fun l H =>
           match H with
           | ex_intro _ l1 (ex_intro _ l2 (conj E (conj H1 H2))) =>
               eq_ind_r L (Happ l1 l2 H1 H2) E
           end)).
  now apply emits_bind.
Qed.

Lemma emits_for_each {A : Type} (L : list stmt -> Prop) (f : A -> M unit)
    (xs : list A) :
  closed L -> (forall x, emits L (f x)) -> emits L (for_each xs f).
Proof.
  intros HL Hf. induction xs as [|x xs IH]; simpl.
  - apply emits_ret, HL.
  - apply emits_bind_closed; auto.
Qed.

Lemma closed_all_nodes : closed all_nodes.
Proof.
  split; [reflexivity|]. unfold all_nodes. intros l1 l2 H1 H2.
  now rewrite forallb_app, H1, H2.
Qed.

Lemma closed_all_edges : closed all_edges.
Proof.
  split; [reflexivity|]. unfold all_edges. intros l1 l2 H1 H2.
  now rewrite forallb_app, H1, H2.
Qed.

Lemma emits_draw_node (ep node : json) : emits all_nodes (draw_node ep node).
Proof.
  unfold draw_node.
  apply emits_bind_closed; [apply closed_all_nodes|now apply emits_lift|].
  intros name. destruct (py_eq name ep);
    (apply emits_bind_closed;
     [apply closed_all_nodes|now apply emits_lift|]);
    intros name'; now apply emits_graph_node.
Qed.

Lemma emits_draw_edge (e : json) : emits all_edges (draw_edge e).
Proof.
  pose proof closed_all_edges as HC.
  unfold draw_edge.
  apply emits_bind_closed; [exact HC|now apply emits_lift|].
  intros to. destruct (is_list to).
  - apply emits_bind_closed; [exact HC|now apply emits_lift|]. intros to'.
    apply emits_bind_closed; [exact HC|now apply emits_lift|]. intros ts.
    apply emits_for_each; [exact HC|]. intros x.
    apply emits_bind_closed; [exact HC|now apply emits_lift|]. intros f.
    now apply emits_graph_edge.
  - apply emits_bind_closed; [exact HC|now apply emits_lift|]. intros f.
    apply emits_bind_closed; [exact HC|now apply emits_lift|]. intros to'.
    now apply emits_graph_edge.
Qed.

Lemma nodes_then_edges_app (l1 l2 : list stmt) :
  all_nodes l1 -> all_edges l2 -> nodes_then_edges (l1 ++ l2) = true.
Proof.
  unfold all_nodes, all_edges. intros H1 H2.
  induction l1 as [|[n a|f t] l1 IH]; simpl in *.
  - destruct l2 as [|[n a|f t] l2]; simpl in *; auto; discriminate.
  - auto.
  - discriminate.
Qed.

Lemma emits_draw_graph (nodes edges ep : json) :
  emits in_order (draw_graph nodes edges ep).
Proof.
  unfold draw_graph.
  assert (H : emits
            (fun l => exists l1 l2, l = l1 ++ l2 /\
                        all_nodes l1 /\ all_edges l2)
            (node_items <- lift (iter nodes) ;;
             for_each node_items (draw_node ep) ;;
             edge_items <- lift (iter edges) ;;
             for_each edge_items draw_edge)).
  { intros h. unfold bind at 1, lift at 1.
    destruct (iter nodes) as [e|items].
    - exists []. simpl. rewrite extend_nil. split; [|reflexivity].
      now exists [], [].
    - apply (emits_bind all_nodes all_edges).
      + apply emits_for_each; [apply closed_all_nodes|].
        intros x; apply emits_draw_node.
      + intros _. apply emits_bind_closed;
          [apply closed_all_edges|now apply emits_lift|].
        intros es. apply emits_for_each; [apply closed_all_edges|].
        intros x; apply emits_draw_edge.
      + reflexivity. }
  apply (emits_weaken _ _ _ (fun l H =>
           match H with
           | ex_intro _ l1 (ex_intro _ l2 (conj E (conj H1 H2))) =>
               eq_ind_r in_order (nodes_then_edges_app l1 l2 H1 H2) E
           end) H).
Qed.

Lemma emits_convert_body : emits in_order convert_body.
Proof.
  intros h. unfold convert_body, bind at 1, read_arg. cbv beta iota.
  unfold bind at 1, lift at 1.
  destruct (getitem (arg_object h) (KStr "text")) as [e|text];
    [exists []; simpl; now rewrite extend_nil|].
  unfold bind at 1, lift at 1.
  destruct (getitem text (KInt 0)) as [e|gc];
    [exists []; simpl; now rewrite extend_nil|].
  do 3 (unfold bind at 1, lift at 1;
        match goal with
        | |- context [match get ?a ?b ?c with _ => _ end] =>
            destruct (get a b c) as [?|?];
            [exists []; simpl; now rewrite extend_nil|]
        end).
  apply emits_draw_graph.
Qed.

(** X6.  However a call ends, on whatever input, the calls it has made
    on the graph are [node] calls followed by [edge] calls: no node is
    ever drawn after an edge. *)
Theorem calls_are_nodes_then_edges
    (installed : bool) (known : string -> bool) (json_data : json)
    (fmt : string) :
  nodes_then_edges
    (calls_of
       (ended (convert_json_to_graphviz installed known json_data fmt))) =
    true.
Proof.
  unfold convert_json_to_graphviz.
  destruct installed; [|reflexivity].
  unfold Graphviz.new. destruct (known fmt); [|reflexivity].
  match goal with |- context [convert_body ?h] =>
    destruct (emits_convert_body h) as (l & Hl & Hg);
    destruct (convert_body h) as [h' [e|u]]
  end; simpl in *; now rewrite Hg.
Qed.

(** ** What the drawing depends on *)

Lemma count_highlighted (ep : string) (ns : list string) :
  length
    (filter highlighted
       (map (fun n => (JStr n, if String.eqb n ep
                               then doublecircle else []))
          ns)) =
    count_occ string_dec ns ep.
Proof.
  induction ns as [|n ns IH]; simpl; [reflexivity|].
  destruct (String.eqb_spec n ep) as [->|Hne]; simpl.
  - destruct (string_dec ep ep); [now rewrite IH|contradiction].
  - destruct (string_dec n ep); [contradiction|exact IH].
Qed.

(** X8.  In a description whose names and edge ends are strings, drawn
    in a format graphviz knows, the number of highlighted [node] calls is
    the number of nodes named like the entry point: none if no node
    carries that name, several if the name is repeated. *)
Theorem highlighted_calls_count_entry_point_occurrences
    (known : string -> bool) (json_data : json)
    (cfg : list (string * json)) (s : shape)
    (ns : list string) (ep fmt : string) :
  known fmt = true ->
  graph_config json_data = inr (JDict cfg) ->
  shape_of cfg = Some s ->
  names s = map JStr ns ->
  typed_ends (ends s) = true ->
  entry s = Some (JStr ep) ->
  exists g,
    ended (convert_json_to_graphviz true known json_data fmt) =
      Returned g /\
    length (filter highlighted (node_calls (body g))) =
      count_occ string_dec ns ep.
Proof.
  intros Hk Hc Hs Hn Ht He.
  exists (extend (fresh_graph fmt) (drawing s)).
  rewrite (convert_shaped _ _ _ _ fmt Hk Hc Hs (typed_intro _ _ Hn Ht)).
  rewrite body_fresh, node_calls_drawing.
  split; [reflexivity|].
  unfold entry_value. rewrite He, Hn, map_map. apply count_highlighted.
Qed.

Lemma highlighted_calls_count_entry_point_occurrences_witness :
  exists g,
    ended (convert_json_to_graphviz true Sample.formats
             (Sample.wrapped Faulty.repeated_entry) "pdf") = Returned g /\
    length (filter highlighted (node_calls (body g))) = 2.
Proof.
  apply (highlighted_calls_count_entry_point_occurrences Sample.formats
           (Sample.wrapped Faulty.repeated_entry) Faulty.repeated_entry
           (mkShape [JStr "fetch"; JStr "parse"; JStr "fetch"] []
              (Some (JStr "fetch")))
           ["fetch"; "parse"; "fetch"] "fetch" "pdf");
    reflexivity.
Defined.

(** X9.  Of [json_data] the method uses nothing but the first item of
    "text", and of that item nothing but what stands under "nodes",
    "edges" and "entry_point": two inputs that agree there end alike,
    whatever other keys and other "text" items they hold. *)
Theorem only_three_keys_of_first_text_item_matter
    (known : string -> bool) (j1 j2 : json)
    (cfg1 cfg2 : list (string * json)) (fmt : string) :
  graph_config j1 = inr (JDict cfg1) ->
  graph_config j2 = inr (JDict cfg2) ->
  lookup "nodes" cfg1 = lookup "nodes" cfg2 ->
  lookup "edges" cfg1 = lookup "edges" cfg2 ->
  lookup "entry_point" cfg1 = lookup "entry_point" cfg2 ->
  ended (convert_json_to_graphviz true known j1 fmt) =
    ended (convert_json_to_graphviz true known j2 fmt).
Proof.
  intros H1 H2 Hn He Hp. apply (ended_config _ _ _ _ _ fmt H1 H2).
  intros k d Hk. rewrite !get_dict.
  unfold defaults in Hk. simpl in Hk.
  destruct Hk as [[= <- <-]|[[= <- <-]|[[= <- <-]|[]]]];
    now rewrite ?Hn, ?He, ?Hp.
Qed.

Lemma only_three_keys_of_first_text_item_matter_witness :
  ended (convert_json_to_graphviz true Sample.formats
           (Sample.wrapped Sample.fetch_parse) "pdf") =
    ended (convert_json_to_graphviz true Sample.formats
             (JDict [("input", JStr "scrape the news");
                     ("text", JList [JDict (("version", JNum 2) ::
                                            Sample.fetch_parse);
                                     JDict Sample.fan_out])]) "pdf").
Proof.
  apply (only_three_keys_of_first_text_item_matter Sample.formats
           (Sample.wrapped Sample.fetch_parse)
           (JDict [("input", JStr "scrape the news");
                   ("text", JList [JDict (("version", JNum 2) ::
                                          Sample.fetch_parse);
                                   JDict Sample.fan_out])])
           Sample.fetch_parse (("version", JNum 2) :: Sample.fetch_parse)
           "pdf");
    reflexivity.
Defined.

(** X10.  An edge whose "to" is the empty list draws nothing and needs
    no "from": with node names that are strings, a format graphviz knows
    and only such edges, the call returns the graph of the nodes
    alone. *)
Theorem empty_target_lists_draw_nothing
    (known : string -> bool) (json_data : json)
    (cfg : list (string * json))
    (items : list json) (ns : list string) (es : list json)
    (fmt : string) :
  known fmt = true ->
  graph_config json_data = inr (JDict cfg) ->
  items_of (lookup "nodes" cfg) = Some items ->
  traverse node_name items = Some (map JStr ns) ->
  lookup "edges" cfg = Some (JList es) ->
  Forall (fun e => exists d, e = JDict d /\
                     lookup "to" d = Some (JList [])) es ->
  ended (convert_json_to_graphviz true known json_data fmt) =
    Returned
      (extend (fresh_graph fmt)
         (map (node_stmt (value_or (lookup "entry_point" cfg) JNull))
            (map JStr ns))).
Proof.
  intros Hk Hc Hi Hn He Hes. rewrite (ended_draw_graph _ _ _ fmt Hk Hc).
  assert (Hv : traverse edge_view es = Some (map (fun _ => []) es)).
  { clear - Hes.
    induction Hes as [|e es (d & -> & Hto) _ IH]; simpl; [reflexivity|].
    unfold edge_view at 1. simpl. now rewrite Hto, IH. }
  assert (Hi' := iter_items_of _ _ Hi).
  assert (He' : iter (value_or (lookup "edges" cfg) (JList [])) = inr es)
    by now rewrite He.
  rewrite (outcome_appends _ _ _ _
             (draw_graph_returns _ _ _ items ns es _
                Hi' (names_view _ _ Hn) He' Hv)).
  do 2 f_equal. clear.
  rewrite <- (app_nil_r (map _ (map JStr ns))) at 2.
  f_equal. induction es; simpl; auto.
Qed.

Lemma empty_target_lists_draw_nothing_witness :
  ended (convert_json_to_graphviz true Sample.formats
           (Sample.wrapped Faulty.no_targets) "pdf") =
    Returned (extend (fresh_graph "pdf") [Node (JStr "fetch") []]).
Proof.
  apply (empty_target_lists_draw_nothing Sample.formats
           (Sample.wrapped Faulty.no_targets) Faulty.no_targets
           [Sample.node_of "fetch"] ["fetch"]
           [JDict [("to", JList [])]] "pdf");
    try reflexivity.
  repeat constructor. exists [("to", JList [])]. split; reflexivity.
Defined.
(** ** Strings and dicts *)

Lemma string_app_assoc (a b c : string) :
  ((a ++ b) ++ c = a ++ b ++ c)%string.
Proof. induction a as [|x a IH]; simpl; [|rewrite IH]; reflexivity. Qed.

Lemma string_app_nil_r (a : string) : (a ++ EmptyString = a)%string.
Proof. induction a as [|x a IH]; simpl; [|rewrite IH]; reflexivity. Qed.

Lemma prefix_app (sub after : string) :
  String.prefix sub (sub ++ after) = true.
Proof.
  induction sub as [|c sub IH]; simpl; [now destruct after|].
  destruct (ascii_dec c c); [exact IH|contradiction].
Qed.

Lemma prefix_split (sub s : string) :
  String.prefix sub s = true -> exists after, s = (sub ++ after)%string.
Proof.
  revert s; induction sub as [|c sub IH]; intros s H.
  - now exists s.
  - destruct s as [|c' s]; [discriminate|]. simpl in H.
    destruct (ascii_dec c c') as [<-|]; [|discriminate].
    destruct (IH s H) as [after ->]. now exists after.
Qed.

Lemma contains_prefix (sub s : string) :
  String.prefix sub s = true -> Builder.contains sub s = true.
Proof. intros H. destruct s; cbn [Builder.contains]; now rewrite H. Qed.

Lemma contains_occurs (sub s : string) :
  Builder.contains sub s = true <-> Builder.occurs sub s.
Proof.
  split.
  - induction s as [|c s IH]; cbn [Builder.contains].
    + destruct (String.prefix sub EmptyString) eqn:Hp; [|discriminate].
      intros _. destruct (prefix_split _ _ Hp) as [after Ha].
      now exists EmptyString, after.
    + destruct (String.prefix sub (String c s)) eqn:Hp.
      * intros _. destruct (prefix_split _ _ Hp) as [after Ha].
        now exists EmptyString, after.
      * intros H. destruct (IH H) as (before & after & ->).
        now exists (String c before), after.
  - intros (before & after & ->).
    induction before as [|c before IH].
    + cbn [String.append]. apply contains_prefix, prefix_app.
    + change (String c before ++ sub ++ after)%string
        with (String c (before ++ sub ++ after)).
      cbn [Builder.contains]. rewrite IH.
      now destruct (String.prefix sub (String c (before ++ sub ++ after))).
Qed.

Lemma occurs_inside (sub s before after : string) :
  Builder.occurs sub s -> Builder.occurs sub (before ++ s ++ after).
Proof.
  intros (b & a & ->). exists (before ++ b)%string, (a ++ after)%string.
  now rewrite !string_app_assoc.
Qed.

Lemma lookup_set_item (k k' : string) (v : json)
    (d : list (string * json)) :
  lookup k (Builder.set_item k' v d) =
    if String.eqb k k' then Some v else lookup k d.
Proof.
  induction d as [|[k0 v0] d IH]; simpl.
  - reflexivity.
  - destruct (String.eqb_spec k' k0) as [->|Hne]; simpl.
    + now destruct (String.eqb k k0).
    + rewrite IH. destruct (String.eqb_spec k k0) as [->|Hk].
      * destruct (String.eqb_spec k0 k'); [congruence|reflexivity].
      * reflexivity.
Qed.

Lemma lookup_absent (k : string) (d : list (string * json)) :
  ~ In k (map fst d) -> lookup k d = None.
Proof.
  induction d as [|[k0 v0] d IH]; simpl; [reflexivity|].
  intros H. destruct (String.eqb_spec k k0) as [->|Hne].
  - exfalso; apply H; now left.
  - apply IH. intros Hin; apply H; now right.
Qed.

(** After [d.update(e)] a key stands for what [e] gives it, and for what
    [d] gave it when [e] does not have it. *)
Lemma lookup_update (k : string) (d e : list (string * json)) :
  NoDup (map fst e) ->
  lookup k (Builder.update d e) =
    match lookup k e with
    | Some v => Some v
    | None => lookup k d
    end.
Proof.
  unfold Builder.update. revert d.
  induction e as [|[k0 v0] e IH]; simpl; intros d Hnd; [reflexivity|].
  inversion Hnd as [|? ? Hnotin Hnd']; subst.
  rewrite (IH _ Hnd'), lookup_set_item.
  destruct (String.eqb_spec k k0) as [->|Hne]; [|reflexivity].
  now rewrite (lookup_absent _ _ Hnotin).
Qed.

Lemma lookup_update_none (k : string) (d e : list (string * json)) :
  lookup k d = None -> lookup k e = None ->
  lookup k (Builder.update d e) = None.
Proof.
  unfold Builder.update. revert d.
  induction e as [|[k0 v0] e IH]; simpl; intros d Hd He; [exact Hd|].
  destruct (String.eqb_spec k k0) as [->|Hne]; [discriminate|].
  apply IH; [|exact He]. rewrite lookup_set_item.
  destruct (String.eqb_spec k k0); [contradiction|exact Hd].
Qed.

Lemma lookup_merge_defaults (k : string) (cfg : list (string * json)) :
  NoDup (map fst cfg) ->
  lookup k (Builder.merge Builder.llm_defaults cfg) =
    match lookup k cfg with
    | Some v => Some v
    | None => lookup k Builder.llm_defaults
    end.
Proof. intros H. unfold Builder.merge. now rewrite lookup_update. Qed.

(** ** [_create_llm] *)

(** X11.  Without an "api_key" in the configuration the call raises the
    [ValueError] of line 67, whatever else the configuration holds and
    before the model name is looked at. *)
Theorem missing_api_key_raises_value_error
    (lib : Builder.langchain) (installed : bool)
    (cfg : list (string * json)) :
  lookup "api_key" cfg = None ->
  Builder._create_llm lib installed (JDict cfg) =
    inl (Builder.ValueError "LLM configuration must include an 'api_key'.").
Proof.
  intros H.
  unfold Builder._create_llm, Builder.llm_call, Builder.has_key,
    Builder.merge.
  now rewrite (lookup_update_none "api_key"
                 (Builder.update [] Builder.llm_defaults) cfg eq_refl H).
Qed.

Lemma missing_api_key_raises_value_error_witness :
  Builder._create_llm Builder.keyword_only true
    (JDict [("model", JStr "gpt-4")]) =
    inl (Builder.ValueError "LLM configuration must include an 'api_key'.").
Proof.
  apply (missing_api_key_raises_value_error Builder.keyword_only true
           [("model", JStr "gpt-4")]).
  reflexivity.
Defined.

Lemma llm_call_params (installed : bool) (cfg : list (string * json))
    (cls : Builder.chat_class) (p : list (string * json)) :
  Builder.llm_call installed (JDict cfg) = inr (cls, p) ->
  p = Builder.merge Builder.llm_defaults cfg.
Proof.
  unfold Builder.llm_call.
  destruct (negb _); [discriminate|].
  destruct (Builder.in_model "gpt-" _) as [e|[|]]; try discriminate.
  { now intros [= _ <-]. }
  destruct (Builder.in_model "gemini" _) as [e|[|]]; try discriminate.
  { destruct installed; [now intros [= _ <-]|discriminate]. }
  destruct (Builder.in_model "ernie" _) as [e|[|]]; try discriminate.
  now intros [= _ <-].
Qed.

(** X12.  The dict handed to the constructor of the chat model is the
    configuration laid over the defaults: every key of the configuration
    goes in with its value, and "temperature" and "streaming" stand at 0
    and [True] unless the configuration sets them. *)
Theorem llm_params_are_config_over_defaults
    (installed : bool) (cfg : list (string * json))
    (cls : Builder.chat_class) (p : list (string * json)) (k : string) :
  NoDup (map fst cfg) ->
  Builder.llm_call installed (JDict cfg) = inr (cls, p) ->
  lookup k p =
    match lookup k cfg with
    | Some v => Some v
    | None => lookup k [("temperature", JNum 0); ("streaming", JBool true)]
    end.
Proof.
  intros Hnd Hm. rewrite (llm_call_params _ _ _ _ Hm).
  now apply lookup_merge_defaults.
Qed.

Lemma llm_params_are_config_over_defaults_witness :
  lookup "temperature"
    [("temperature", JNum 1); ("streaming", JBool true);
     ("api_key", JStr "key"); ("model", JStr "gemini-pro")] =
    Some (JNum 1).
Proof.
  apply (llm_params_are_config_over_defaults true
           [("api_key", JStr "key"); ("model", JStr "gemini-pro");
            ("temperature", JNum 1)]
           Builder.ChatGoogleGenerativeAI
           [("temperature", JNum 1); ("streaming", JBool true);
            ("api_key", JStr "key"); ("model", JStr "gemini-pro")]
           "temperature").
  - repeat constructor; simpl; intuition discriminate.
  - reflexivity.
Defined.

Lemma in_model_string (sub model : string) (cfg : list (string * json)) :
  NoDup (map fst cfg) ->
  lookup "model" cfg = Some (JStr model) ->
  Builder.in_model sub (Builder.merge Builder.llm_defaults cfg) =
    inr (Builder.contains sub model).
Proof.
  intros Hnd Hm. unfold Builder.in_model. simpl getitem.
  now rewrite (lookup_merge_defaults _ _ Hnd), Hm.
Qed.

Lemma has_api_key (cfg : list (string * json)) (key : json) :
  NoDup (map fst cfg) ->
  lookup "api_key" cfg = Some key ->
  Builder.has_key "api_key" (Builder.merge Builder.llm_defaults cfg) = true.
Proof.
  intros Hnd Hk. unfold Builder.has_key.
  now rewrite (lookup_merge_defaults _ _ Hnd), Hk.
Qed.

Lemma not_contains (sub s : string) :
  ~ Builder.occurs sub s -> Builder.contains sub s = false.
Proof.
  intros H. destruct (Builder.contains sub s) eqn:Hc; [|reflexivity].
  exfalso. now apply H, contains_occurs.
Qed.

(** X13.  With an "api_key" and a model name that is a string, the class
    called is chosen by the first of "gpt-", "gemini", "ernie" that occurs
    in the name, in this order: a name holding "gpt-" has [ChatOpenAI]
    called even when it holds "gemini" or "ernie" as well.  The class is
    called with the merged parameters as its one positional argument, and
    the method ends as that call ends: it raises what the constructor
    raises, and returns the model otherwise. *)
Theorem model_name_selects_the_class
    (lib : Builder.langchain) (installed : bool)
    (cfg : list (string * json)) (key : json) (model : string) :
  NoDup (map fst cfg) ->
  lookup "api_key" cfg = Some key ->
  lookup "model" cfg = Some (JStr model) ->
  (Builder.occurs "gpt-" model ->
   Builder.llm_call installed (JDict cfg) =
     inr (Builder.ChatOpenAI, Builder.merge Builder.llm_defaults cfg) /\
   Builder._create_llm lib installed (JDict cfg) =
     Builder.construct lib Builder.ChatOpenAI
       (Builder.merge Builder.llm_defaults cfg)) /\
  (~ Builder.occurs "gpt-" model -> Builder.occurs "gemini" model ->
   installed = true ->
   Builder.llm_call installed (JDict cfg) =
     inr (Builder.ChatGoogleGenerativeAI,
          Builder.merge Builder.llm_defaults cfg) /\
   Builder._create_llm lib installed (JDict cfg) =
     Builder.construct lib Builder.ChatGoogleGenerativeAI
       (Builder.merge Builder.llm_defaults cfg)) /\
  (~ Builder.occurs "gpt-" model -> ~ Builder.occurs "gemini" model ->
   Builder.occurs "ernie" model ->
   Builder.llm_call installed (JDict cfg) =
     inr (Builder.ErnieBotChat, Builder.merge Builder.llm_defaults cfg) /\
   Builder._create_llm lib installed (JDict cfg) =
     Builder.construct lib Builder.ErnieBotChat
       (Builder.merge Builder.llm_defaults cfg)).
Proof.
  intros Hnd Hk Hm. unfold Builder._create_llm, Builder.llm_call.
  rewrite (has_api_key _ _ Hnd Hk), !(in_model_string _ _ _ Hnd Hm).
  simpl negb. cbv iota.
  split; [|split].
  - intros H. apply contains_occurs in H. now rewrite H.
  - intros H1 H2 ->. apply contains_occurs in H2.
    now rewrite (not_contains _ _ H1), H2.
  - intros H1 H2 H3. apply contains_occurs in H3.
    now rewrite (not_contains _ _ H1), (not_contains _ _ H2), H3.
Qed.

Lemma model_name_selects_the_class_witness :
  Builder.llm_call false
    (JDict [("api_key", JStr "k"); ("model", JStr "ernie-gemini-gpt-4")]) =
    inr (Builder.ChatOpenAI,
         [("temperature", JNum 0); ("streaming", JBool true);
          ("api_key", JStr "k"); ("model", JStr "ernie-gemini-gpt-4")]) /\
  Builder._create_llm Builder.keyword_only false
    (JDict [("api_key", JStr "k"); ("model", JStr "ernie-gemini-gpt-4")]) =
    inl (Builder.Builtin TypeError).
Proof.
  apply (proj1 (model_name_selects_the_class Builder.keyword_only false
                  [("api_key", JStr "k");
                   ("model", JStr "ernie-gemini-gpt-4")]
                  (JStr "k") "ernie-gemini-gpt-4"
                  ltac:(repeat constructor; simpl; intuition discriminate)
                  eq_refl eq_refl)).
  exists "ernie-gemini-"%string, "4"%string. reflexivity.
Defined.

(** X14.  A model name in which none of "gpt-", "gemini" and "ernie"
    occurs ends the call with [ValueError("Model not supported")]. *)
Theorem unknown_model_is_not_supported
    (lib : Builder.langchain) (installed : bool)
    (cfg : list (string * json)) (key : json) (model : string) :
  NoDup (map fst cfg) ->
  lookup "api_key" cfg = Some key ->
  lookup "model" cfg = Some (JStr model) ->
  ~ Builder.occurs "gpt-" model ->
  ~ Builder.occurs "gemini" model ->
  ~ Builder.occurs "ernie" model ->
  Builder._create_llm lib installed (JDict cfg) =
    inl (Builder.ValueError "Model not supported").
Proof.
  intros Hnd Hk Hm H1 H2 H3. unfold Builder._create_llm, Builder.llm_call.
  rewrite (has_api_key _ _ Hnd Hk), !(in_model_string _ _ _ Hnd Hm).
  now rewrite (not_contains _ _ H1), (not_contains _ _ H2),
    (not_contains _ _ H3).
Qed.

Lemma unknown_model_is_not_supported_witness :
  Builder._create_llm Builder.keyword_only true
    (JDict [("api_key", JStr "k"); ("model", JStr "llama-3")]) =
    inl (Builder.ValueError "Model not supported").
Proof.
  apply (unknown_model_is_not_supported Builder.keyword_only true
           [("api_key", JStr "k"); ("model", JStr "llama-3")]
           (JStr "k") "llama-3");
    try reflexivity;
    try (intros H; apply contains_occurs in H; discriminate).
  repeat constructor; simpl; intuition discriminate.
Defined.

(** X15.  A "gemini" model needs the langchain_google_genai package: when
    its import fails the call raises [ImportError], while a name that
    holds "gpt-", or does not hold "gemini", is treated the same whether
    or not the package is there. *)
Theorem gemini_needs_its_package
    (lib : Builder.langchain) (cfg : list (string * json)) (key : json)
    (model : string) :
  NoDup (map fst cfg) ->
  lookup "api_key" cfg = Some key ->
  lookup "model" cfg = Some (JStr model) ->
  (~ Builder.occurs "gpt-" model ->
   Builder.occurs "gemini" model ->
   Builder._create_llm lib false (JDict cfg) =
     inl (Builder.Builtin ImportError)) /\
  (Builder.occurs "gpt-" model \/ ~ Builder.occurs "gemini" model ->
   Builder._create_llm lib false (JDict cfg) =
     Builder._create_llm lib true (JDict cfg)).
Proof.
  intros Hnd Hk Hm. unfold Builder._create_llm, Builder.llm_call.
  rewrite (has_api_key _ _ Hnd Hk), !(in_model_string _ _ _ Hnd Hm).
  split.
  - intros H1 H2. apply contains_occurs in H2.
    now rewrite (not_contains _ _ H1), H2.
  - intros [H|H].
    + apply contains_occurs in H. now rewrite H.
    + rewrite (not_contains _ _ H).
      now destruct (Builder.contains "gpt-" model).
Qed.

Lemma gemini_needs_its_package_witness :
  Builder._create_llm Builder.keyword_only false Builder.gemini_config =
    inl (Builder.Builtin ImportError) /\
  Builder._create_llm Builder.keyword_only false Builder.ernie_config =
    Builder._create_llm Builder.keyword_only true Builder.ernie_config.
Proof.
  split.
  - apply (proj1 (gemini_needs_its_package Builder.keyword_only
                    [("api_key", JStr "key"); ("model", JStr "gemini-pro");
                     ("temperature", JNum 1)]
                    (JStr "key") "gemini-pro"
                    ltac:(repeat constructor; simpl; intuition discriminate)
                    eq_refl eq_refl)).
    + intros H; apply contains_occurs in H; discriminate.
    + exists EmptyString, "-pro"%string. reflexivity.
  - apply (proj2 (gemini_needs_its_package Builder.keyword_only
                    [("api_key", JStr "key"); ("model", JStr "ernie-bot")]
                    (JStr "key") "ernie-bot"
                    ltac:(repeat constructor; simpl; intuition discriminate)
                    eq_refl eq_refl)).
    right. intros H; apply contains_occurs in H; discriminate.
Defined.

(** X16.  With an "api_key" but no "model" key the call raises [KeyError],
    not the [ValueError] of an unsupported model; with a "model" that is
    [None], a [bool] or an [int] it raises [TypeError]. *)
Theorem missing_model_raises_key_error
    (lib : Builder.langchain) (installed : bool)
    (cfg : list (string * json)) (key : json) :
  NoDup (map fst cfg) ->
  lookup "api_key" cfg = Some key ->
  (lookup "model" cfg = None ->
   Builder._create_llm lib installed (JDict cfg) =
     inl (Builder.Builtin KeyError)) /\
  (forall v, lookup "model" cfg = Some v -> scalar v = true ->
   Builder._create_llm lib installed (JDict cfg) =
     inl (Builder.Builtin TypeError)).
Proof.
  intros Hnd Hk. unfold Builder._create_llm, Builder.llm_call.
  rewrite (has_api_key _ _ Hnd Hk). simpl negb. cbv iota.
  unfold Builder.in_model. simpl getitem.
  rewrite (lookup_merge_defaults _ _ Hnd). split.
  - intros ->. reflexivity.
  - intros v -> Hv. destruct v; try discriminate; reflexivity.
Qed.

Lemma missing_model_raises_key_error_witness :
  Builder._create_llm Builder.keyword_only true
    (JDict [("api_key", JStr "k")]) =
    inl (Builder.Builtin KeyError) /\
  Builder._create_llm Builder.keyword_only true
    (JDict [("api_key", JStr "k"); ("model", JNull)]) =
    inl (Builder.Builtin TypeError).
Proof.
  split.
  - apply (proj1 (missing_model_raises_key_error Builder.keyword_only true
                    [("api_key", JStr "k")] (JStr "k")
                    ltac:(repeat constructor; simpl; intuition discriminate)
                    eq_refl)).
    reflexivity.
  - apply (proj2 (missing_model_raises_key_error Builder.keyword_only true
                    [("api_key", JStr "k"); ("model", JNull)] (JStr "k")
                    ltac:(repeat constructor; simpl; intuition discriminate)
                    eq_refl) JNull);
      reflexivity.
Defined.
(** ** [_generate_nodes_description] *)

Lemma concat_cons (sep x y : string) (l : list string) :
  String.concat sep (x :: y :: l) =
    (x ++ sep ++ String.concat sep (y :: l))%string.
Proof. reflexivity. Qed.

Lemma concat_app (sep : string) (l1 l2 : list string) :
  l1 <> [] -> l2 <> [] ->
  String.concat sep (l1 ++ l2) =
    (String.concat sep l1 ++ sep ++ String.concat sep l2)%string.
Proof.
  intros H1 H2. induction l1 as [|x l1 IH]; [contradiction|].
  destruct l1 as [|y l1].
  - destruct l2 as [|z l2]; [contradiction|]. reflexivity.
  - change ((x :: y :: l1) ++ l2) with (x :: y :: (l1 ++ l2)).
    rewrite !concat_cons.
    change (y :: l1 ++ l2) with ((y :: l1) ++ l2).
    rewrite IH by discriminate. now rewrite !string_app_assoc.
Qed.

Lemma occurs_refl (s : string) : Builder.occurs s s.
Proof.
  exists EmptyString, EmptyString. simpl. now rewrite string_app_nil_r.
Qed.

Lemma occurs_concat (sep x : string) (l : list string) :
  In x l -> Builder.occurs x (String.concat sep l).
Proof.
  induction l as [|x0 l IH]; [contradiction|].
  destruct l as [|y l].
  - intros [->|[]]. apply occurs_refl.
  - rewrite concat_cons. intros [->|Hin].
    + exists EmptyString, (sep ++ String.concat sep (y :: l))%string.
      reflexivity.
    + destruct (IH Hin) as (before & after & ->).
      exists (x0 ++ sep ++ before)%string, after.
      now rewrite !string_app_assoc.
Qed.

(** X17.  Every node of the registry is described: the line made of its
    name, description, type and argument names occurs in the text that
    [_generate_nodes_description] returns. *)
Theorem every_node_is_described
    (nodes_metadata : list (string * Builder.node_metadata))
    (node : string) (data : Builder.node_metadata) :
  In (node, data) nodes_metadata ->
  Builder.occurs (Builder.node_line node data)
    (Builder._generate_nodes_description nodes_metadata).
Proof.
  intros H. unfold Builder._generate_nodes_description.
  apply occurs_concat.
  apply (in_map (fun entry => Builder.node_line (fst entry) (snd entry))
           _ _ H).
Qed.

Lemma every_node_is_described_witness :
  Builder.occurs
    (Builder.node_line "ParseNode"
       (Builder.mkNodeMetadata "Parses {html} into text." "node"
          [("doc_type", JStr "str"); ("document", JStr "str")]))
    (Builder._generate_nodes_description Builder.sample_metadata).
Proof.
  apply (every_node_is_described Builder.sample_metadata).
  simpl; auto.
Defined.

(** X18.  The description of a registry read in two parts is the
    description of the first part, a line break, and the description of
    the second: entries are separated by one line break and nothing is
    put before the first or after the last. *)
Theorem description_of_two_registries
    (m1 m2 : list (string * Builder.node_metadata)) :
  m1 <> [] -> m2 <> [] ->
  Builder._generate_nodes_description (m1 ++ m2) =
    (Builder._generate_nodes_description m1 ++ Builder.newline ++
     Builder._generate_nodes_description m2)%string.
Proof.
  intros H1 H2. unfold Builder._generate_nodes_description.
  rewrite map_app. apply concat_app.
  - destruct m1; [contradiction|discriminate].
  - destruct m2; [contradiction|discriminate].
Qed.

Lemma description_of_two_registries_witness :
  Builder._generate_nodes_description Builder.sample_metadata =
    (Builder.node_line "FetchNode"
       (Builder.mkNodeMetadata "Fetches the page behind a URL." "node"
          [("url", JStr "str")]) ++
     Builder.newline ++
     Builder.node_line "ParseNode"
       (Builder.mkNodeMetadata "Parses {html} into text." "node"
          [("doc_type", JStr "str"); ("document", JStr "str")]))%string.
Proof.
  apply (description_of_two_registries
           [("FetchNode",
             Builder.mkNodeMetadata "Fetches the page behind a URL." "node"
               [("url", JStr "str")])]
           [("ParseNode",
             Builder.mkNodeMetadata "Parses {html} into text." "node"
               [("doc_type", JStr "str"); ("document", JStr "str")])]);
    discriminate.
Defined.

(** ** [_create_extraction_chain] and [__init__] *)

Lemma prompt_template_formatted (nodes_description : string) :
  Builder.create_graph_prompt_template nodes_description =
    Builder.Formatted
      (Builder.prompt_head ++ nodes_description ++ Builder.prompt_tail).
Proof. reflexivity. Qed.

Lemma placeholder_in_tail :
  Builder.occurs (Builder.quote ++ "{input}" ++ Builder.quote)
    Builder.prompt_tail.
Proof. apply contains_occurs. reflexivity. Qed.

(** X19.  Whatever the description of the nodes is, also one with braces
    in it, formatting the template raises nothing, and the text handed to
    [ChatPromptTemplate.from_template] is the fixed opening text, the
    description as it is, and the fixed closing text, in which the
    "{input}" field is still to be filled.  The method ends as the two
    library calls on that text end: what [from_template] raises on it,
    the method raises. *)
Theorem extraction_prompt_holds_description_verbatim
    (lib : Builder.langchain) (graph_schema : json)
    (nodes_description : string) (self_llm : Builder.llm) :
  Builder._create_extraction_chain lib graph_schema nodes_description
    self_llm =
    Some (Builder.chain_call lib
            (Builder.prompt_head ++ nodes_description ++
             Builder.prompt_tail)
            graph_schema self_llm) /\
  (forall e,
     Builder.from_template_raises lib
       (Builder.prompt_head ++ nodes_description ++ Builder.prompt_tail) =
       Some e ->
     Builder._create_extraction_chain lib graph_schema nodes_description
       self_llm =
       Some (inl (Builder.Builtin e))) /\
  Builder.occurs (Builder.quote ++ "{input}" ++ Builder.quote)
    Builder.prompt_tail.
Proof.
  unfold Builder._create_extraction_chain.
  rewrite prompt_template_formatted.
  split; [reflexivity|split; [|exact placeholder_in_tail]].
  intros e He. unfold Builder.chain_call. now rewrite He.
Qed.

Lemma extraction_prompt_holds_description_verbatim_witness :
  Builder._create_extraction_chain Builder.brace_strict (JDict []) "a { b"
    Builder.sample_llm =
    Some (inl (Builder.Builtin ValueError)).
Proof.
  apply (proj1 (proj2 (extraction_prompt_holds_description_verbatim
                         Builder.brace_strict (JDict []) "a { b"
                         Builder.sample_llm))
           ValueError).
  reflexivity.
Defined.

(** X20.  Building a [GraphBuilder] fails with [KeyError] when the
    configuration has no "llm" entry, and with the [ValueError] of
    [_create_llm] when that entry has no "api_key"; in both cases no
    object is made. *)
Theorem init_needs_llm_and_api_key
    (env : Builder.environment) (prompt : string)
    (cfg : list (string * json)) :
  (lookup "llm" cfg = None ->
   Builder.__init__ env prompt (JDict cfg) =
     Some (inl (Builder.Builtin KeyError))) /\
  (forall llm_cfg,
     lookup "llm" cfg = Some (JDict llm_cfg) ->
     lookup "api_key" llm_cfg = None ->
     Builder.__init__ env prompt (JDict cfg) =
       Some (inl (Builder.ValueError
                    "LLM configuration must include an 'api_key'."))).
Proof.
  unfold Builder.__init__. simpl getitem. split.
  - intros ->. reflexivity.
  - intros llm_cfg -> Hk.
    assert (H : Builder._create_llm (Builder.library env)
                  (Builder.genai_installed env) (JDict llm_cfg) =
                inl (Builder.ValueError
                       "LLM configuration must include an 'api_key'.")).
    { unfold Builder._create_llm, Builder.llm_call, Builder.has_key,
        Builder.merge.
      now rewrite (lookup_update_none "api_key"
                     (Builder.update [] Builder.llm_defaults) llm_cfg
                     eq_refl Hk). }
    now rewrite H.
Qed.

Lemma init_needs_llm_and_api_key_witness :
  Builder.__init__ Builder.sample_environment "list the headlines"
    (JDict [("verbose", JBool true)]) =
    Some (inl (Builder.Builtin KeyError)) /\
  Builder.__init__ Builder.sample_environment "list the headlines"
    (JDict [("llm", JDict [("model", JStr "gpt-4")])]) =
    Some (inl (Builder.ValueError
                 "LLM configuration must include an 'api_key'.")).
Proof.
  split.
  - apply (proj1 (init_needs_llm_and_api_key Builder.sample_environment
                    "list the headlines" [("verbose", JBool true)])).
    reflexivity.
  - apply (proj2 (init_needs_llm_and_api_key Builder.sample_environment
                    "list the headlines"
                    [("llm", JDict [("model", JStr "gpt-4")])])
             [("model", JStr "gpt-4")]);
      reflexivity.
Defined.

(** X21.  Building a [GraphBuilder] ends as the call of the chat-model
    class ends: when the class chosen for the configuration raises on the
    dict it is handed, the constructor of [GraphBuilder] raises the same
    exception, no description is generated, no chain is created and no
    object is made. *)
Theorem init_raises_what_the_chat_model_raises
    (env : Builder.environment) (prompt : string) (config llm_config : json)
    (cls : Builder.chat_class) (p : list (string * json)) (e : exn) :
  getitem config (KStr "llm") = inr llm_config ->
  Builder.llm_call (Builder.genai_installed env) llm_config =
    inr (cls, p) ->
  Builder.constructor_raises (Builder.library env) cls p = Some e ->
  Builder.__init__ env prompt config = Some (inl (Builder.Builtin e)).
Proof.
  intros Hc Hm He.
  unfold Builder.__init__, Builder._create_llm, Builder.construct.
  now rewrite Hc, Hm, He.
Qed.

Lemma init_raises_what_the_chat_model_raises_witness :
  Builder.__init__ Builder.sample_environment "list the headlines"
    (JDict [("llm", Builder.openai_config)]) =
    Some (inl (Builder.Builtin TypeError)).
Proof.
  apply (init_raises_what_the_chat_model_raises Builder.sample_environment
           "list the headlines" (JDict [("llm", Builder.openai_config)])
           Builder.openai_config Builder.ChatOpenAI
           [("temperature", JNum 0); ("streaming", JBool true);
            ("api_key", JStr "sk-test"); ("model", JStr "gpt-3.5-turbo")]
           TypeError);
    reflexivity.
Defined.
